(** * md-converter: the HTML -> Markdown mapping engine

    A shallow embedding of [app/services/mapping_service.py]
    ([MappingService]) and of the thin [ConverterService] wrapper of
    [app/services/converter_service.py], followed by the properties of the
    mapping engine.

    Python values are modelled as the code has them:
    - [str] is a list of Unicode code points ([pystr]);
    - [int] is [Z] (line numbers, list indices, the [-1] sentinel);
    - a [Dict[str, Any]] is an association list in insertion order;
    - the instance attribute [self.mappings] and the entropy consumed by
      [uuid.uuid4()] live in an explicit [state];
    - an exception raised inside the [try] block is a value [Raise e];
      state changes made before the raise persist, as they do in Python.

    The parser ([BeautifulSoup(.., 'html.parser')]), the serialiser
    ([str(soup)], [str(element)]) and the renderer ([markdownify]) are
    third-party libraries: they are Section variables, arbitrary fallible
    functions. *)

From Stdlib Require Import List ZArith NArith Lia Bool String Ascii.
Import ListNotations.

Set Warnings "-register-all".

(** ** Python text *)

Module Py.

(** A character is its code point; a [str] is the list of its characters. *)
Abbreviation char := N (only parsing).
Abbreviation pystr := (list N) (only parsing).

(** A literal: the code points of an ASCII Rocq string. *)
Definition lit (s : string) : pystr :=
  List.map N_of_ascii (list_ascii_of_string s).

Definition NL : char := 10%N.

Definition char_eqb (a b : char) : bool := N.eqb a b.

Fixpoint str_eqb (a b : pystr) : bool :=
  match a, b with
  | [], [] => true
  | x :: a', y :: b' => char_eqb x y && str_eqb a' b'
  | _, _ => false
  end.

(** [len(x)] as a Python int. *)
Definition len {A} (l : list A) : Z := Z.of_nat (List.length l).

(** [ch.isspace()] for a code point of a [str]: the characters
    [str.strip()] removes when called without argument. *)
Definition isspace (c : char) : bool :=
  ((9 <=? c) && (c <=? 13) || (28 <=? c) && (c <=? 32)
   || (c =? 133) || (c =? 160) || (c =? 5760)
   || (8192 <=? c) && (c <=? 8202)
   || (c =? 8232) || (c =? 8233) || (c =? 8239) || (c =? 8287)
   || (c =? 12288))%N.

Fixpoint lstrip (s : pystr) : pystr :=
  match s with
  | [] => []
  | c :: s' => if isspace c then lstrip s' else s
  end.

Definition rstrip (s : pystr) : pystr := rev (lstrip (rev s)).

(** [s.strip()] *)
Definition strip (s : pystr) : pystr := rstrip (lstrip s).

(** [s.split(sep)] for a one-character separator: never the empty list. *)
Fixpoint split (sep : char) (s : pystr) : list pystr :=
  match s with
  | [] => [[]]
  | c :: s' =>
      if char_eqb c sep then [] :: split sep s'
      else match split sep s' with
           | l :: ls => (c :: l) :: ls
           | [] => [[c]]
           end
  end.

(** [sep.join(parts)] *)
Fixpoint join (sep : pystr) (parts : list pystr) : pystr :=
  match parts with
  | [] => []
  | [p] => p
  | p :: ps => p ++ sep ++ join sep ps
  end.

(** [bool(s)] for a string. *)
Definition truthy (s : pystr) : bool :=
  match s with [] => false | _ => true end.

(** [range(a, b)] *)
Definition range (a b : Z) : list Z :=
  List.map (fun k => (a + Z.of_nat k)%Z) (seq 0 (Z.to_nat (b - a))).

(** [enumerate(l, start)] *)
Fixpoint enumerate {A} (start : Z) (l : list A) : list (Z * A) :=
  match l with
  | [] => []
  | x :: l' => (start, x) :: enumerate (start + 1) l'
  end.

(** [l[k]] for an index the caller has checked to be below [len(l)];
    every subscript of the program is non-negative. *)
Definition getitem (l : list pystr) (k : Z) : pystr :=
  nth (Z.to_nat k) l [].

(** *** Number formatting *)

Definition digit_char (d : N) : char := (48 + d)%N.

(** The characters ['0'] to ['9']. *)
Definition is_digit (c : char) : Prop := (48 <= c <= 57)%N.

(** The decimal digits of [n], most significant first, by [fuel]
    successive divisions. *)
Fixpoint dec_digits (fuel : nat) (n : N) (acc : pystr) : pystr :=
  match fuel with
  | O => acc
  | S fuel' =>
      let acc' := digit_char (n mod 10) :: acc in
      if (n / 10 =? 0)%N then acc' else dec_digits fuel' (n / 10)%N acc'
  end.

(** [str(n)] for [n >= 0]: a number has at most as many digits as bits
    (and at least one). *)
Definition str_of_int (n : Z) : pystr :=
  let m := Z.to_N n in
  dec_digits (S (N.to_nat (N.size m))) m [].

(** [s.rjust(w, '0')] *)
Definition zfill (w : nat) (s : pystr) : pystr :=
  repeat (digit_char 0) (w - List.length s) ++ s.

(** [f"{i:03d}"] for [i >= 0]. *)
Definition fmt_03d (i : Z) : pystr := zfill 3 (str_of_int i).

(** The value of a digit string, read most significant digit first. *)
Definition int_of_digits (s : pystr) : Z :=
  fold_left (fun v c => (10 * v + (Z.of_N c - 48))%Z) s 0%Z.

Definition hex_char (d : N) : char :=
  if (d <? 10)%N then (48 + d)%N else (87 + d)%N.

(** [f"{n:0{w}x}"] for [n < 16^w]. *)
Definition fmt_hex (w : nat) (n : N) : pystr :=
  List.map (fun k => hex_char (N.land (N.shiftr n (4 * N.of_nat (w - 1 - k))) 15))
           (seq 0 w).

End Py.
Import Py.

(** ** Values, exceptions and the parsed tree *)

(** [Dict[str, Any]] as the program builds it. *)
Inductive pyval :=
| VStr (s : pystr)
| VInt (z : Z)
| VList (l : list pyval)
| VDict (d : list (string * pyval)).

Definition Dict := list (string * pyval).

(** [d.get(key)] *)
Fixpoint dict_get (d : Dict) (key : string) : option pyval :=
  match d with
  | [] => None
  | (k, v) :: d' => if String.eqb k key then Some v else dict_get d' key
  end.

(** What a library call can raise and [except Exception] catches: an
    instance of [Exception], of which the program only reads [str(e)].
    Interrupts and exits ([KeyboardInterrupt], [SystemExit]), which are not
    [Exception]s and do not come from the calls, are not modelled. *)
Inductive exn := Exception (msg : pystr).

Definition str_exn (e : exn) : pystr := let 'Exception msg := e in msg.

Inductive result (A : Type) :=
| Ok (a : A)
| Raise (e : exn).
Arguments Ok {A} a.
Arguments Raise {A} e.

(** A node of the tree [bs4] builds: a [Tag], or a [NavigableString]
    (text, and its subclasses: comments, doctypes, CDATA). *)
Inductive PageElement :=
| Tag (name : pystr) (attrs : list (pystr * pystr)) (contents : list PageElement)
| NavigableString (text : pystr).

(** The [BeautifulSoup] object; [soup.children] are the top-level nodes. *)
Record Soup := { children : list PageElement }.

Definition is_Tag (element : PageElement) : bool :=
  match element with Tag _ _ _ => true | NavigableString _ => false end.

(** [attrs.get(key)] *)
Fixpoint attrs_get (attrs : list (pystr * pystr)) (key : pystr) : option pystr :=
  match attrs with
  | [] => None
  | (k, v) :: attrs' => if str_eqb k key then Some v else attrs_get attrs' key
  end.

(** [attrs[key] = value]: replaces the value of an existing key in place,
    appends a new one. *)
Fixpoint attrs_set (attrs : list (pystr * pystr)) (key value : pystr)
  : list (pystr * pystr) :=
  match attrs with
  | [] => [(key, value)]
  | (k, v) :: attrs' =>
      if str_eqb k key then (k, value) :: attrs'
      else (k, v) :: attrs_set attrs' key value
  end.

(** [element.get(key)] *)
Definition element_get (element : PageElement) (key : pystr) : option pystr :=
  match element with
  | Tag _ attrs _ => attrs_get attrs key
  | NavigableString _ => None
  end.

(** [element[key] = value] *)
Definition element_set (element : PageElement) (key value : pystr) : PageElement :=
  match element with
  | Tag name attrs contents => Tag name (attrs_set attrs key value) contents
  | NavigableString _ => element
  end.

(** [element.name] *)
Definition element_name (element : PageElement) : pystr :=
  match element with
  | Tag name _ _ => name
  | NavigableString _ => []
  end.

(** ** [uuid.uuid4()] *)

(** [UUID(bytes=os.urandom(16), version=4).int]: the 128 random bits with
    the variant (RFC 4122) and version fields overwritten. *)
Definition uuid4_int (random : N) : N :=
  let i := (random mod 2 ^ 128)%N in
  let i := N.ldiff i (N.shiftl 49152 48) in
  let i := N.lor i (N.shiftl 32768 48) in
  let i := N.ldiff i (N.shiftl 61440 64) in
  N.lor i (N.shiftl 4 76).

(** [str(UUID)]: 32 hexadecimal digits in groups of 8-4-4-4-12. *)
Definition str_uuid (i : N) : pystr :=
  let hex := fmt_hex 32 i in
  firstn 8 hex ++ lit "-" ++ firstn 4 (skipn 8 hex) ++ lit "-"
  ++ firstn 4 (skipn 12 hex) ++ lit "-" ++ firstn 4 (skipn 16 hex) ++ lit "-"
  ++ skipn 20 hex.

(** ** The engine's state and its monad *)

Record HtmlToMarkdownMapping := {
  html_element_id : pystr;
  html_content : pystr;
  html_tag : pystr;
  markdown_line_start : Z;
  markdown_line_end : Z;
  markdown_content : pystr
}.

(** [self.mappings] of the [MappingService] instance, and the entropy
    [uuid4] reads: [os_urandom k] is the number made of the 16 bytes the
    [k]-th call of [os.urandom(16)] returns. *)
Record state := {
  self_mappings : list HtmlToMarkdownMapping;
  os_urandom : nat -> N;
  urandom_calls : nat
}.

(** [MappingService.__init__] *)
Definition init (entropy : nat -> N) (calls : nat) : state :=
  {| self_mappings := []; os_urandom := entropy; urandom_calls := calls |}.

Definition M (A : Type) := state -> result A * state.

Definition ret {A} (a : A) : M A := fun st => (Ok a, st).

Definition bind {A B} (c : M A) (k : A -> M B) : M B :=
  fun st => match c st with
            | (Ok a, st') => k a st'
            | (Raise e, st') => (Raise e, st')
            end.

(** A call of a library function, which returns or raises. *)
Definition call {A} (r : result A) : M A := fun st => (r, st).

Notation "x <- c1 ;; c2" := (bind c1 (fun x => c2))
  (at level 61, c1 at next level, right associativity).
Notation "c1 ;;; c2" := (bind c1 (fun _ => c2))
  (at level 61, right associativity).

(** [self.mappings = ms] *)
Definition set_mappings (ms : list HtmlToMarkdownMapping) : M unit :=
  fun st => (Ok tt, {| self_mappings := ms;
                       os_urandom := os_urandom st;
                       urandom_calls := urandom_calls st |}).

(** [self.mappings.append(m)] *)
Definition append_mapping (m : HtmlToMarkdownMapping) : M unit :=
  fun st => (Ok tt, {| self_mappings := self_mappings st ++ [m];
                       os_urandom := os_urandom st;
                       urandom_calls := urandom_calls st |}).

Definition get_mappings : M (list HtmlToMarkdownMapping) :=
  fun st => (Ok (self_mappings st), st).

(** [str(uuid.uuid4())] *)
Definition uuid4_str : M pystr :=
  fun st => (Ok (str_uuid (uuid4_int (os_urandom st (urandom_calls st)))),
             {| self_mappings := self_mappings st;
                os_urandom := os_urandom st;
                urandom_calls := S (urandom_calls st) |}).

Definition data_mapping_id : pystr := lit "data-mapping-id".

(** ** [MappingService] *)

Section MappingService.

(** The third-party capabilities, with the configuration the program
    fixes: [BeautifulSoup(text, 'html.parser')], [str(soup)],
    [str(element)] and
    [md(html, heading_style="ATX", bullets="-", strip=['script','style'])]. *)
Variable BeautifulSoup : pystr -> result Soup.
Variable str_soup : Soup -> result pystr.
Variable str_element : PageElement -> result pystr.
Variable md : pystr -> result pystr.

(** [_add_line_numbers] *)
Definition _add_line_numbers (markdown_text : pystr) : pystr :=
  let lines := split NL markdown_text in
  let numbered_lines :=
    List.map (fun '(i, line) =>
                let line_number := lit "[" ++ fmt_03d i ++ lit "]" in
                line_number ++ lit " " ++ line)
             (enumerate 1 lines) in
  join [NL] numbered_lines.

(** [_add_unique_ids]: the loop over [soup.children]; the tree is mutated
    in place, so the annotated children are what the rest of the call
    sees. *)
Fixpoint add_ids_loop (elements : list PageElement) : M (list PageElement) :=
  match elements with
  | [] => ret []
  | element :: rest =>
      element' <- (if is_Tag element
                   then u <- uuid4_str ;;
                        ret (element_set element data_mapping_id u)
                   else ret element) ;;
      rest' <- add_ids_loop rest ;;
      ret (element' :: rest')
  end.

Definition _add_unique_ids (soup : Soup) : M Soup :=
  cs <- add_ids_loop (children soup) ;;
  ret {| children := cs |}.

(** The inner loop of [_find_content_lines]: [js] is what is left of
    [enumerate(content_lines)]; [false] is the [break]. *)
Fixpoint lines_match (markdown_lines : list pystr) (i : Z)
         (js : list (Z * pystr)) : bool :=
  match js with
  | [] => true
  | (j, content_line) :: rest =>
      if (len markdown_lines <=? i + j)%Z
         || negb (str_eqb (strip (getitem markdown_lines (i + j)))
                          (strip content_line))
      then false
      else lines_match markdown_lines i rest
  end.

(** The outer loop of [_find_content_lines] over what is left of
    [range(start_from, len(markdown_lines))]. *)
Fixpoint find_loop (markdown_lines content_lines : list pystr)
         (candidates : list Z) : Z * Z :=
  match candidates with
  | [] => (-1, -1)%Z
  | i :: rest =>
      if lines_match markdown_lines i (enumerate 0 content_lines)
      then (i, i + len content_lines - 1)%Z
      else find_loop markdown_lines content_lines rest
  end.

(** [_find_content_lines] *)
Definition _find_content_lines (markdown_lines : list pystr) (content : pystr)
           (start_from : Z) : Z * Z :=
  let content_lines := split NL content in
  find_loop markdown_lines content_lines
            (range start_from (len markdown_lines)).

(** The body of the loop of [_create_mapping]: returns the value of
    [current_line] after the iteration. *)
Definition mapping_body (markdown_lines : list pystr) (element : PageElement)
           (current_line : Z) : M Z :=
  if is_Tag element then
    match element_get element data_mapping_id with
    | Some id =>
        if truthy id then
          html <- call (str_element element) ;;
          rendered <- call (md html) ;;
          let element_markdown := strip rendered in
          if truthy element_markdown then
            let '(line_start, line_end) :=
              _find_content_lines markdown_lines element_markdown current_line in
            if negb (line_start =? -1)%Z then
              content <- call (str_element element) ;;
              append_mapping
                {| html_element_id := id;
                   html_content := content;
                   html_tag := element_name element;
                   markdown_line_start := line_start + 1;
                   markdown_line_end := line_end + 1;
                   markdown_content := element_markdown |} ;;;
              ret line_end
            else ret current_line
          else ret current_line
        else ret current_line
    | None => ret current_line
    end
  else ret current_line.

Fixpoint mapping_loop (markdown_lines : list pystr)
         (elements : list PageElement) (current_line : Z) : M unit :=
  match elements with
  | [] => ret tt
  | element :: rest =>
      current_line' <- mapping_body markdown_lines element current_line ;;
      mapping_loop markdown_lines rest current_line'
  end.

(** [_create_mapping] *)
Definition _create_mapping (soup : Soup) (markdown_text : pystr) : M unit :=
  set_mappings [] ;;;
  let markdown_lines := split NL markdown_text in
  let current_line := 0%Z in
  mapping_loop markdown_lines (children soup) current_line.

(** [_mapping_to_dict] *)
Definition _mapping_to_dict (mapping : HtmlToMarkdownMapping) : Dict :=
  [ ("html_element_id", VStr (html_element_id mapping));
    ("html_tag", VStr (html_tag mapping));
    ("html_content", VStr (html_content mapping));
    ("markdown_line_start", VInt (markdown_line_start mapping));
    ("markdown_line_end", VInt (markdown_line_end mapping));
    ("markdown_content", VStr (markdown_content mapping)) ]%string.

(** The [try] block of [convert_with_mapping]. *)
Definition convert_try (html_text : pystr) : M Dict :=
  soup <- call (BeautifulSoup html_text) ;;
  soup <- _add_unique_ids soup ;;
  html <- call (str_soup soup) ;;
  markdown_result <- call (md html) ;;
  _create_mapping soup markdown_result ;;;
  let numbered_markdown := _add_line_numbers markdown_result in
  html_with_ids <- call (str_soup soup) ;;
  mappings <- get_mappings ;;
  ret [ ("original_html_length", VInt (len html_text));
        ("markdown_result", VStr (strip numbered_markdown));
        ("html_with_ids", VStr html_with_ids);
        ("mappings", VList (List.map (fun m => VDict (_mapping_to_dict m)) mappings));
        ("status", VStr (lit "converted")) ]%string.

(** The [except Exception as e] handler. *)
Definition convert_except (html_text : pystr) (e : exn) : Dict :=
  [ ("original_html_length", VInt (len html_text));
    ("markdown_result", VStr []);
    ("mappings", VList []);
    ("status", VStr (lit "error"));
    ("error", VStr (str_exn e)) ]%string.

(** [convert_with_mapping] *)
Definition convert_with_mapping (html_text : pystr) (st : state) : Dict * state :=
  match convert_try html_text st with
  | (Ok d, st') => (d, st')
  | (Raise e, st') => (convert_except html_text e, st')
  end.

(** The loop of [find_html_by_line] over [self.mappings]. *)
Fixpoint find_by_line_loop (mappings : list HtmlToMarkdownMapping)
         (line_number : Z) : Dict :=
  match mappings with
  | [] => []
  | mapping :: rest =>
      if (markdown_line_start mapping <=? line_number)%Z
         && (line_number <=? markdown_line_end mapping)%Z
      then _mapping_to_dict mapping
      else find_by_line_loop rest line_number
  end.

(** [find_html_by_line]: reads [self.mappings], changes nothing. *)
Definition find_html_by_line (line_number : Z) (st : state) : Dict :=
  find_by_line_loop (self_mappings st) line_number.

(** [ConverterService.convert_html_text] and
    [ConverterService.find_html_by_line] pass their argument to the
    [MappingService] they own. *)
Definition convert_html_text (html_text : pystr) (st : state) : Dict * state :=
  convert_with_mapping html_text st.

Definition service_find_html_by_line (line_number : Z) (st : state) : Dict :=
  find_html_by_line line_number st.

End MappingService.

(** ** Vocabulary of the properties *)

(** The fragment [content_lines] occurs in [markdown_lines] at index [i]:
    every fragment line exists there and equals the document line at the
    same offset once both are stripped. *)
Definition matches_at (markdown_lines content_lines : list pystr) (i : Z) : Prop :=
  forall j, (0 <= j < len content_lines)%Z ->
    (i + j < len markdown_lines)%Z
    /\ strip (getitem markdown_lines (i + j)) = strip (getitem content_lines j).

(** The numbered-line format ["[%03d] %s"]. *)
Definition numbered_line (i : Z) (line : pystr) : pystr :=
  lit "[" ++ fmt_03d i ++ lit "] " ++ line.

(** The text [_add_line_numbers] joins: one numbered line per line. *)
Definition numbered_lines (markdown_text : pystr) : list pystr :=
  List.map (fun '(i, line) => numbered_line i line)
           (enumerate 1 (split NL markdown_text)).

(** [line_number] lies in the inclusive range of [mapping]. *)
Definition covers (mapping : HtmlToMarkdownMapping) (line_number : Z) : Prop :=
  (markdown_line_start mapping <= line_number <= markdown_line_end mapping)%Z.

(** The line range of a record. *)
Definition line_range (mapping : HtmlToMarkdownMapping) : Z * Z :=
  (markdown_line_start mapping, markdown_line_end mapping).

(** Two inclusive ranges have a line in common. *)
Definition overlap (r1 r2 : Z * Z) : Prop :=
  exists line, (fst r1 <= line <= snd r1)%Z /\ (fst r2 <= line <= snd r2)%Z.

(** A record lies inside a document of [n] lines and spans as many lines
    as its own Markdown has. *)
Definition in_bounds (n : Z) (mapping : HtmlToMarkdownMapping) : Prop :=
  (1 <= markdown_line_start mapping <= markdown_line_end mapping)%Z
  /\ (markdown_line_end mapping <= n)%Z
  /\ (markdown_line_end mapping - markdown_line_start mapping + 1
      = len (split NL (markdown_content mapping)))%Z.

(** Each record begins no earlier than the line on which the record before
    it ends. *)
Fixpoint chained (mappings : list HtmlToMarkdownMapping) : Prop :=
  match mappings with
  | [] => True
  | m1 :: rest =>
      match rest with
      | [] => True
      | m2 :: _ => (markdown_line_end m1 <= markdown_line_start m2)%Z
      end /\ chained rest
  end.

(** What holds of the cursor and the stored records at the top of every
    iteration over a document of [n] lines. *)
Definition loop_invariant (n : Z) (current_line : Z)
           (mappings : list HtmlToMarkdownMapping) : Prop :=
  (0 <= current_line)%Z
  /\ Forall (in_bounds n) mappings
  /\ chained mappings
  /\ Forall (fun m => (markdown_line_end m <= current_line + 1)%Z) mappings.

(** The dictionary a conversion returns when nothing raised. *)
Definition converted_result (html_text markdown_result html_with_ids : pystr)
           (mappings : list HtmlToMarkdownMapping) : Dict :=
  [ ("original_html_length", VInt (len html_text));
    ("markdown_result", VStr (strip (_add_line_numbers markdown_result)));
    ("html_with_ids", VStr html_with_ids);
    ("mappings", VList (List.map (fun m => VDict (_mapping_to_dict m)) mappings));
    ("status", VStr (lit "converted")) ]%string.

(** The failure contract: what the returned dictionary holds when [e]
    was raised. *)
Definition error_result (html_text : pystr) (e : exn) (d : Dict) : Prop :=
  dict_get d "status" = Some (VStr (lit "error"))
  /\ dict_get d "markdown_result" = Some (VStr [])
  /\ dict_get d "mappings" = Some (VList [])
  /\ dict_get d "error" = Some (VStr (str_exn e))
  /\ dict_get d "original_html_length" = Some (VInt (len html_text)).

(** The number of [Tag]s among the top-level nodes. *)
Definition count_tags (elements : list PageElement) : nat :=
  count_occ bool_dec (List.map is_Tag elements) true.

(** Every [Tag] carries a non-empty mapping identifier. *)
Definition tagged (elements : list PageElement) : Prop :=
  Forall (fun element =>
            is_Tag element = true ->
            exists id, element_get element data_mapping_id = Some id
                       /\ truthy id = true)
         elements.

(** The state with another stored list. *)
Definition with_mappings (ms : list HtmlToMarkdownMapping) (st : state) : state :=
  {| self_mappings := ms;
     os_urandom := os_urandom st;
     urandom_calls := urandom_calls st |}.

(** [m] is the first record of [mappings] whose range holds
    [line_number]. *)
Definition first_cover (mappings : list HtmlToMarkdownMapping) (line_number : Z)
           (m : HtmlToMarkdownMapping) : Prop :=
  exists before after,
    mappings = before ++ m :: after
    /\ covers m line_number
    /\ forall m', In m' before -> ~ covers m' line_number.

(** The call raises [e] before the mapping phase: while parsing, while
    serialising the annotated tree or while rendering it. *)
Definition raises_before_mapping (BeautifulSoup : pystr -> result Soup)
           (str_soup : Soup -> result pystr) (md : pystr -> result pystr)
           (html_text : pystr) (st : state) (e : exn) : Prop :=
  BeautifulSoup html_text = Raise e
  \/ exists parsed soup st1,
       BeautifulSoup html_text = Ok parsed
       /\ _add_unique_ids parsed st = (Ok soup, st1)
       /\ (str_soup soup = Raise e
           \/ exists html, str_soup soup = Ok html /\ md html = Raise e).

(** The call raises [e] in the mapping phase: while serialising or
    rendering one of the top-level elements. *)
Definition raises_while_mapping (BeautifulSoup : pystr -> result Soup)
           (str_soup : Soup -> result pystr)
           (str_element : PageElement -> result pystr)
           (md : pystr -> result pystr)
           (html_text : pystr) (st : state) (e : exn) : Prop :=
  exists parsed soup st1 html markdown_result,
    BeautifulSoup html_text = Ok parsed
    /\ _add_unique_ids parsed st = (Ok soup, st1)
    /\ str_soup soup = Ok html
    /\ md html = Ok markdown_result
    /\ fst (mapping_loop str_element md (split NL markdown_result)
              (children soup) 0 (with_mappings [] st1)) = Raise e.

(** Two states whose future [os.urandom] reads coincide. *)
Definition same_entropy (st1 st2 : state) : Prop :=
  forall k, os_urandom st1 (urandom_calls st1 + k)
            = os_urandom st2 (urandom_calls st2 + k).

(** The states an engine instance goes through: a new instance, then any
    number of conversions. *)
Inductive reachable (BeautifulSoup : pystr -> result Soup)
          (str_soup : Soup -> result pystr)
          (str_element : PageElement -> result pystr)
          (md : pystr -> result pystr) : state -> Prop :=
| reach_init entropy calls :
    reachable BeautifulSoup str_soup str_element md (init entropy calls)
| reach_convert html_text st :
    reachable BeautifulSoup str_soup str_element md st ->
    reachable BeautifulSoup str_soup str_element md
      (snd (convert_with_mapping BeautifulSoup str_soup str_element md html_text st)).

(** ** Stand-ins for the libraries

    Small concrete capabilities on which the engine can be run: a parser
    that knows a few documents, the serialiser of the tree, and a renderer
    for flat documents of headings, paragraphs and bold text. *)

Module Fixture.

Definition quote : pystr := [34%N].

Fixpoint decode (element : PageElement) : pystr :=
  match element with
  | NavigableString text => text
  | Tag name attrs contents =>
      lit "<" ++ name
      ++ List.concat (List.map (fun '(k, v) => lit " " ++ k ++ lit "=" ++ quote ++ v ++ quote)
                          attrs)
      ++ lit ">" ++ List.concat (List.map decode contents)
      ++ lit "</" ++ name ++ lit ">"
  end.

Definition str_element (element : PageElement) : result pystr :=
  Ok (decode element).

Definition str_soup (soup : Soup) : result pystr :=
  Ok (List.concat (List.map decode (children soup))).

Definition text (s : string) : PageElement := NavigableString (lit s).
Definition tag (name : string) (contents : list PageElement) : PageElement :=
  Tag (lit name) [] contents.

(** The documents the stand-in parser knows and their trees. *)
Definition documents : list (pystr * Soup) :=
  [ (lit "<h1>Title</h1><p>Hello <b>world</b></p>",
     {| children := [tag "h1" [text "Title"];
                     tag "p" [text "Hello "; tag "b" [text "world"]]] |});
    (lit "<p>a</p><p>a</p>",
     {| children := [tag "p" [text "a"]; tag "p" [text "a"]] |});
    (lit "<p> </p><b>x</b>z<p>y</p>",
     {| children := [tag "p" [text " "]; tag "b" [text "x"]; text "z";
                     tag "p" [text "y"]] |}) ].

Fixpoint lookup (table : list (pystr * Soup)) (html_text : pystr) : result Soup :=
  match table with
  | [] => Raise (Exception (lit "unsupported markup"))
  | (k, soup) :: table' =>
      if str_eqb k html_text then Ok soup else lookup table' html_text
  end.

Definition BeautifulSoup (html_text : pystr) : result Soup :=
  lookup documents html_text.

(** What the renderer writes for a tag, given the text between its angle
    brackets. *)
Fixpoint tag_name (tag_text : pystr) : pystr :=
  match tag_text with
  | [] => []
  | c :: rest => if (c =? 32)%N then [] else c :: tag_name rest
  end.

Definition tag_markup (tag_text : pystr) : pystr :=
  let name := tag_name tag_text in
  if str_eqb name (lit "h1") then lit "# "
  else if str_eqb name (lit "/h1") || str_eqb name (lit "/p") then [NL; NL]
  else if str_eqb name (lit "b") || str_eqb name (lit "/b") then lit "**"
  else [].

(** [in_tag] holds the text read since an opening angle bracket, last
    character first. *)
Fixpoint scan (in_tag : option pystr) (html : pystr) : pystr :=
  match html with
  | [] => []
  | c :: rest =>
      match in_tag with
      | None => if (c =? 60)%N then scan (Some []) rest else c :: scan None rest
      | Some acc =>
          if (c =? 62)%N then tag_markup (rev acc) ++ scan None rest
          else scan (Some (c :: acc)) rest
      end
  end.

Definition md (html : pystr) : result pystr := Ok (strip (scan None html)).


Definition entropy (k : nat) : N :=
  (N.of_nat (S k) * 0x0123456789abcdef0123456789abcdef)%N.

(** A new engine. *)
Definition engine : state := init entropy 0.

Definition convert := convert_with_mapping BeautifulSoup str_soup str_element md.

(** The documents of the table, and what the steps of a conversion make
    of them on a new engine. *)
Definition title_doc : pystr := lit "<h1>Title</h1><p>Hello <b>world</b></p>".
Definition twin_doc : pystr := lit "<p>a</p><p>a</p>".
Definition mixed_doc : pystr := lit "<p> </p><b>x</b>z<p>y</p>".

Definition value {A} (default : A) (r : result A) : A :=
  match r with Ok a => a | Raise _ => default end.

Definition parsed (html_text : pystr) : Soup :=
  value {| children := [] |} (BeautifulSoup html_text).

Definition annotated (html_text : pystr) : Soup :=
  value {| children := [] |} (fst (_add_unique_ids (parsed html_text) engine)).

Definition annotated_state (html_text : pystr) : state :=
  snd (_add_unique_ids (parsed html_text) engine).

Definition serialised (html_text : pystr) : pystr :=
  value [] (str_soup (annotated html_text)).

Definition rendered (html_text : pystr) : pystr :=
  value [] (md (serialised html_text)).

(** The [k]-th top-level node of the annotated tree. *)
Definition top (html_text : pystr) (k : nat) : PageElement :=
  nth k (children (annotated html_text)) (NavigableString []).

End Fixture.

(** ** [converter_controller.py] *)

Module Controller.

(** [ConvertRequest] *)
Record ConvertRequest := { html_text : pystr }.

(** How the handler ends: it returns a [JSONResponse] or raises an
    [HTTPException]. *)
Inductive outcome :=
| JSONResponse (status_code : Z) (content : Dict)
| HTTPException (status_code : Z) (detail : pystr).

(** The three texts of the handler, as code points. *)
Definition message_converted : pystr :=
  [72; 84; 77; 76; 32; 1091; 1089; 1087; 1077; 1096; 1085; 1086; 32; 1082;
   1086; 1085; 1074; 1077; 1088; 1090; 1080; 1088; 1086; 1074; 1072; 1085]%N.

Definition detail_missing : pystr :=
  [72; 84; 77; 76; 32; 1090; 1077; 1082; 1089; 1090; 32; 1085; 1077; 32;
   1087; 1088; 1077; 1076; 1086; 1089; 1090; 1072; 1074; 1083; 1077; 1085]%N.

Definition detail_failed : pystr :=
  [1054; 1096; 1080; 1073; 1082; 1072; 32; 1087; 1088; 1080; 32; 1082; 1086;
   1085; 1074; 1077; 1088; 1090; 1072; 1094; 1080; 1080; 58; 32]%N.

(** [d.get(key, default)] *)
Definition get_or (d : Dict) (key : string) (default : pyval) : pyval :=
  match dict_get d key with
  | Some v => v
  | None => default
  end.

(** The content of the response to a text of [n] characters whose
    conversion failed. *)
Definition failed_content (n : Z) : Dict :=
  [ ("message", VStr message_converted);
    ("markdown", VStr []);
    ("html_with_ids", VStr []);
    ("mappings", VList []);
    ("original_html_length", VInt n);
    ("status", VStr (lit "error")) ]%string.

Section Handler.

Variable BeautifulSoup : pystr -> result Soup.
Variable str_soup : Soup -> result pystr.
Variable str_element : PageElement -> result pystr.
Variable md : pystr -> result pystr.

(** [JSONResponse(status_code=200, content=...)] renders its content to
    JSON bytes when it is built, which can raise (a string with a lone
    surrogate cannot be encoded): the rendering is a capability of the web
    framework, like the parser and the renderer of the conversion. *)
Variable render : Dict -> result unit.

(** The [try] block of [convert_html]: a new [ConverterService] (hence a
    new [MappingService], with nothing stored), the conversion, and the
    response. The state is that of the service, which the handler drops;
    [entropy] and [calls] are what [uuid4] reads. *)
Definition convert_html_try (request : ConvertRequest)
           (entropy : nat -> N) (calls : nat) : result Dict * nat :=
  let converter_service := init entropy calls in
  let '(result, converter_service') :=
    convert_html_text BeautifulSoup str_soup str_element md
      (html_text request) converter_service in
  let content :=
    [ ("message", VStr message_converted);
      ("markdown", get_or result "markdown_result" (VStr []));
      ("html_with_ids", get_or result "html_with_ids" (VStr []));
      ("mappings", get_or result "mappings" (VList []));
      ("original_html_length", get_or result "original_html_length" (VInt 0));
      ("status", get_or result "status" (VStr (lit "converted"))) ]%string in
  (match render content with
   | Ok _ => Ok content
   | Raise e => Raise e
   end,
   urandom_calls converter_service').

(** [convert_html]: the outcome and the number of [os.urandom] reads
    made so far. *)
Definition convert_html (request : ConvertRequest)
           (entropy : nat -> N) (calls : nat) : outcome * nat :=
  if negb (truthy (html_text request)) then
    (HTTPException 400 detail_missing, calls)
  else
    match convert_html_try request entropy calls with
    | (Ok content, calls') => (JSONResponse 200 content, calls')
    | (Raise e, calls') =>
        (HTTPException 500 (detail_failed ++ str_exn e), calls')
    end.

End Handler.

(** A stand-in for the rendering of a response: it raises on a string
    that holds a surrogate, as the UTF-8 encoder does. *)
Definition is_surrogate (c : char) : bool :=
  ((55296 <=? c) && (c <=? 57343))%N.

Fixpoint holds_surrogate (v : pyval) : bool :=
  match v with
  | VStr s => existsb is_surrogate s
  | VInt _ => false
  | VList l => existsb holds_surrogate l
  | VDict d => existsb (fun kv => holds_surrogate (snd kv)) d
  end.

Definition render_json (content : Dict) : result unit :=
  if holds_surrogate (VDict content)
  then Raise (Exception (lit "surrogates not allowed"))
  else Ok tt.

End Controller.

(** ** Vocabulary of the further properties *)

(** [element.attrs] and [element.contents] *)
Definition element_attrs (element : PageElement) : list (pystr * pystr) :=
  match element with
  | Tag _ attrs _ => attrs
  | NavigableString _ => []
  end.

Definition element_contents (element : PageElement) : list PageElement :=
  match element with
  | Tag _ _ contents => contents
  | NavigableString _ => []
  end.

(** [sub] is [l] with some elements left out, the others in order. *)
Inductive subsequence {A : Type} : list A -> list A -> Prop :=
| subsequence_nil : subsequence [] []
| subsequence_skip x sub l : subsequence sub l -> subsequence sub (x :: l)
| subsequence_keep x sub l : subsequence sub l -> subsequence (x :: sub) (x :: l).

(** The record [m] is the one the loop of [_create_mapping] builds for the
    top-level [element] in a document of lines [markdown_lines]: its
    fields come from the element, its Markdown is the element's own
    rendering, trimmed and not empty, and that Markdown is found, line by
    line, at the lines of the record's range. *)
Definition record_of (str_element : PageElement -> result pystr)
           (md : pystr -> result pystr) (markdown_lines : list pystr)
           (element : PageElement) (m : HtmlToMarkdownMapping) : Prop :=
  is_Tag element = true
  /\ element_get element data_mapping_id = Some (html_element_id m)
  /\ str_element element = Ok (html_content m)
  /\ html_tag m = element_name element
  /\ (exists rendered, md (html_content m) = Ok rendered
                       /\ markdown_content m = strip rendered)
  /\ markdown_content m <> []
  /\ matches_at markdown_lines (split NL (markdown_content m))
       (markdown_line_start m - 1)
  /\ (markdown_line_end m
      = markdown_line_start m + len (split NL (markdown_content m)) - 1)%Z.

(** The identifier [uuid4] makes of the [k]-th read after [calls]. *)
Definition drawn_id (entropy : nat -> N) (calls k : nat) : pystr :=
  str_uuid (uuid4_int (entropy (calls + k)%nat)).

(** The state after [k] more reads of [os.urandom]. *)
Definition after_reads (k : nat) (st : state) : state :=
  {| self_mappings := self_mappings st;
     os_urandom := os_urandom st;
     urandom_calls := urandom_calls st + k |}.

(** What [_add_unique_ids] makes of the top-level nodes, written without
    the state: the [Tag]s get, in document order, the identifiers of the
    reads [calls], [calls + 1], ... *)
Fixpoint annotate_from (entropy : nat -> N) (calls : nat)
         (elements : list PageElement) : list PageElement :=
  match elements with
  | [] => []
  | element :: rest =>
      if is_Tag element
      then element_set element data_mapping_id (drawn_id entropy calls 0)
           :: annotate_from entropy (S calls) rest
      else element :: annotate_from entropy calls rest
  end.

(** [s.startswith(prefix)] *)
Fixpoint startswith (prefix s : pystr) : bool :=
  match prefix, s with
  | [], _ => true
  | p :: prefix', c :: s' => char_eqb p c && startswith prefix' s'
  | _ :: _, [] => false
  end.

(** A renderer that cannot render a paragraph on its own: it raises on
    text that begins with a [p] tag and is the stand-in renderer
    otherwise. *)
Module Faulty.

Definition md (html : pystr) : result pystr :=
  if startswith (lit "<p") html
  then Raise (Exception (lit "cannot render"))
  else Fixture.md html.

Definition convert :=
  convert_with_mapping Fixture.BeautifulSoup Fixture.str_soup
    Fixture.str_element md.

End Faulty.

(** A parser for documents without markup: the whole text is one text
    node. *)
Module Plain.

Definition BeautifulSoup (html_text : pystr) : result Soup :=
  Ok {| children := [NavigableString html_text] |}.

Definition convert :=
  convert_with_mapping BeautifulSoup Fixture.str_soup Fixture.str_element
    Fixture.md.

End Plain.

(** ** Vocabulary of the libraries' contracts *)








(** * Properties *)

(** ** Python text *)

Section TextFacts.

Lemma str_eqb_eq (a b : pystr) : str_eqb a b = true <-> a = b.
Proof.
  revert b; induction a as [|x a IH]; intros [|y b]; simpl; split;
    try congruence; intro H.
  - apply andb_true_iff in H as [Hx Hab].
    apply N.eqb_eq in Hx. apply IH in Hab. congruence.
  - injection H as -> ->. apply andb_true_iff; split.
    + apply N.eqb_refl.
    + now apply IH.
Qed.

Lemma str_eqb_refl (a : pystr) : str_eqb a a = true.
Proof. now apply str_eqb_eq. Qed.

Lemma truthy_nonempty (s : pystr) : truthy s = true <-> s <> [].
Proof. destruct s; simpl; split; congruence. Qed.

Lemma truthy_false (s : pystr) : truthy s = false <-> s = [].
Proof. destruct s; simpl; split; congruence. Qed.

Lemma len_nonneg {A} (l : list A) : (0 <= len l)%Z.
Proof. unfold len; lia. Qed.

Lemma len_app {A} (l1 l2 : list A) : len (l1 ++ l2) = (len l1 + len l2)%Z.
Proof. unfold len; rewrite length_app; lia. Qed.

Lemma len_cons {A} (x : A) (l : list A) : len (x :: l) = (1 + len l)%Z.
Proof. unfold len; cbn [List.length]; lia. Qed.

Lemma len_map {A B} (f : A -> B) (l : list A) : len (List.map f l) = len l.
Proof. unfold len; now rewrite length_map. Qed.

(** [split] never returns the empty list. *)
Lemma split_cons (sep : char) (s : pystr) :
  exists l ls, split sep s = l :: ls.
Proof.
  induction s as [|c s [l [ls IH]]]; simpl.
  - now exists [], [].
  - destruct (char_eqb c sep).
    + now exists [], (split sep s).
    + rewrite IH. now exists (c :: l), ls.
Qed.

Lemma len_split_pos (sep : char) (s : pystr) : (1 <= len (split sep s))%Z.
Proof.
  destruct (split_cons sep s) as [l [ls ->]]. rewrite len_cons.
  pose proof (len_nonneg ls); lia.
Qed.

(** No line of [split] contains the separator. *)
Lemma split_no_sep (sep : char) (s : pystr) :
  Forall (fun l => ~ In sep l) (split sep s).
Proof.
  induction s as [|c s IH]; simpl.
  - constructor; auto.
  - destruct (char_eqb c sep) eqn:E.
    + constructor; auto.
    + destruct (split sep s) as [|l ls].
      * constructor; auto. intros [H|[]]. subst.
        unfold char_eqb in E. now rewrite N.eqb_refl in E.
      * inversion IH as [|? ? Hl Hls]; subst. constructor; auto.
        intros [H|H]; auto. subst.
        unfold char_eqb in E. now rewrite N.eqb_refl in E.
Qed.

(** [split] undoes [join] on lines without separator. *)
Lemma split_line (sep : char) (l : pystr) :
  ~ In sep l -> split sep l = [l].
Proof.
  induction l as [|c l IH]; simpl; intro H; auto.
  destruct (char_eqb c sep) eqn:E.
  - apply N.eqb_eq in E. subst. tauto.
  - rewrite IH; tauto.
Qed.

Lemma split_app_sep (sep : char) (l rest : pystr) :
  ~ In sep l -> split sep (l ++ sep :: rest) = l :: split sep rest.
Proof.
  induction l as [|c l IH]; simpl; intro H.
  - unfold char_eqb. now rewrite N.eqb_refl.
  - destruct (char_eqb c sep) eqn:E.
    + apply N.eqb_eq in E. subst. tauto.
    + rewrite IH; tauto.
Qed.

Lemma split_join (sep : char) (ls : list pystr) :
  ls <> [] -> Forall (fun l => ~ In sep l) ls ->
  split sep (join [sep] ls) = ls.
Proof.
  induction ls as [|l ls IH]; [congruence|]. intros _ H.
  inversion H as [|? ? Hl Hls]; subst.
  destruct ls as [|l' ls].
  - simpl. now apply split_line.
  - change (join [sep] (l :: l' :: ls)) with (l ++ sep :: join [sep] (l' :: ls)).
    rewrite split_app_sep by assumption. f_equal. apply IH; congruence.
Qed.

(** [join] puts the last part at the end. *)
Lemma join_snoc (sep : pystr) (ls : list pystr) (l : pystr) :
  exists before, join sep (ls ++ [l]) = before ++ l
                 /\ join sep (ls ++ [l]) = join sep (ls ++ [[]]) ++ l.
Proof.
  induction ls as [|x ls [b [IH1 IH2]]].
  - exists []. simpl. auto.
  - destruct ls as [|y ls].
    + exists (x ++ sep). simpl. rewrite app_nil_r, <- !app_assoc. auto.
    + change (join sep ((x :: y :: ls) ++ [l]))
        with (x ++ sep ++ join sep ((y :: ls) ++ [l])).
      change (join sep ((x :: y :: ls) ++ [[]]))
        with (x ++ sep ++ join sep ((y :: ls) ++ [[]])).
      rewrite IH2. exists (x ++ sep ++ join sep ((y :: ls) ++ [[]])).
      rewrite <- !app_assoc. auto.
Qed.

(** *** [strip] *)

Lemma lstrip_nonspace (c : char) (s : pystr) :
  isspace c = false -> lstrip (c :: s) = c :: s.
Proof. intro H; simpl; now rewrite H. Qed.

Lemma lstrip_app_nonspace (a b : pystr) (c : char) :
  isspace c = false -> lstrip (a ++ c :: b) = lstrip a ++ c :: b.
Proof.
  intro H. induction a as [|x a IH]; simpl.
  - now rewrite H.
  - destruct (isspace x); auto.
Qed.

(** Trailing whitespace is only removed after the last character that
    is not whitespace. *)
Lemma rstrip_app_nonspace (a b : pystr) (c : char) :
  isspace c = false -> rstrip (a ++ c :: b) = a ++ c :: rstrip b.
Proof.
  intro H. unfold rstrip.
  rewrite rev_app_distr. simpl rev. rewrite <- app_assoc. simpl app.
  rewrite lstrip_app_nonspace by assumption.
  rewrite rev_app_distr. simpl rev. rewrite rev_involutive.
  now rewrite <- app_assoc.
Qed.

Lemma lstrip_suffix (s : pystr) : exists ws, s = ws ++ lstrip s.
Proof.
  induction s as [|c s [ws IH]]; simpl.
  - now exists [].
  - destruct (isspace c).
    + exists (c :: ws). simpl. now f_equal.
    + now exists [].
Qed.

Lemma rstrip_prefix (s : pystr) : exists ws, s = rstrip s ++ ws.
Proof.
  unfold rstrip. destruct (lstrip_suffix (rev s)) as [ws H].
  exists (rev ws). rewrite <- rev_app_distr, <- H. now rewrite rev_involutive.
Qed.

Lemma rstrip_no_sep (sep : char) (s : pystr) : ~ In sep s -> ~ In sep (rstrip s).
Proof.
  intros H Hin. destruct (rstrip_prefix s) as [ws E].
  apply H. rewrite E. apply in_or_app. now left.
Qed.

End TextFacts.

(** *** Decimal formatting *)

Section NumberFacts.

Lemma dec_digits_spec (fuel : nat) :
  forall n acc, fuel <> 0%nat -> (n < 2 ^ N.of_nat fuel)%N ->
    exists ds, dec_digits fuel n acc = ds ++ acc
               /\ ds <> []
               /\ Forall is_digit ds
               /\ (forall v, fold_left (fun v c => (10 * v + (Z.of_N c - 48))%Z) ds v
                             = (v * 10 ^ len ds + Z.of_N n)%Z)
               /\ (n <> 0%N -> hd 0%N ds <> 48%N).
Proof.
  induction fuel as [|fuel IH]; intros n acc Hfuel Hn; [congruence|].
  - simpl dec_digits.
    pose proof (N.div_mod n 10 ltac:(lia)) as Hdm.
    pose proof (N.mod_lt n 10 ltac:(lia)) as Hr.
    set (q := (n / 10)%N) in *. set (r := (n mod 10)%N) in *.
    clearbody q r.
    destruct (q =? 0)%N eqn:Eq.
    + apply N.eqb_eq in Eq. exists [digit_char r].
      repeat split.
      * discriminate.
      * constructor; [unfold is_digit, digit_char; lia | constructor].
      * intro v. cbn [fold_left]. unfold digit_char.
        change (len [(48 + r)%N]) with 1%Z. lia.
      * intro Hn0. cbn [hd]. unfold digit_char. lia.
    + apply N.eqb_neq in Eq.
      assert (Hq : (q < 2 ^ N.of_nat fuel)%N).
      { rewrite Nat2N.inj_succ, N.pow_succ_r' in Hn. lia. }
      assert (Hf : fuel <> 0%nat).
      { intros ->. simpl in Hq. lia. }
      destruct (IH q (digit_char r :: acc) Hf Hq) as [ds [E [Hne [Hd [Hv Hh]]]]].
      exists (ds ++ [digit_char r]). repeat split.
      * rewrite E, <- app_assoc. reflexivity.
      * destruct ds; discriminate.
      * apply Forall_app; split; auto.
        constructor; [unfold is_digit, digit_char; lia | constructor].
      * intro v. rewrite fold_left_app, Hv. cbn [fold_left].
        rewrite len_app. unfold digit_char.
        change (len [(48 + r)%N]) with 1%Z.
        rewrite Z.pow_add_r by (try apply len_nonneg; lia). lia.
      * intros _. destruct ds as [|d ds]; [congruence|]. simpl. now apply Hh.
Qed.

Lemma str_of_int_spec (n : Z) :
  (0 <= n)%Z ->
  str_of_int n <> []
  /\ Forall is_digit (str_of_int n)
  /\ int_of_digits (str_of_int n) = n
  /\ (n <> 0%Z -> hd 0%N (str_of_int n) <> 48%N).
Proof.
  intro Hn. unfold str_of_int, int_of_digits.
  destruct (dec_digits_spec (S (N.to_nat (N.size (Z.to_N n)))) (Z.to_N n) [])
    as [ds [E [Hne [Hd [Hv Hh]]]]].
  { discriminate. }
  { rewrite Nat2N.inj_succ, N2Nat.id, N.pow_succ_r'.
    pose proof (N.size_gt (Z.to_N n)). lia. }
  rewrite E, app_nil_r. repeat split; auto.
  - rewrite Hv. lia.
  - intro H0. apply Hh. lia.
Qed.

Lemma digits_value_bound (ds : pystr) :
  Forall is_digit ds -> (0 <= int_of_digits ds < 10 ^ len ds)%Z.
Proof.
  unfold int_of_digits.
  induction ds as [|d ds IH] using rev_ind; intro H.
  - simpl. unfold len; simpl. lia.
  - apply Forall_app in H as [H1 H2]. inversion H2 as [|? ? Hd _]; subst.
    rewrite fold_left_app. cbn [fold_left]. specialize (IH H1).
    rewrite len_app. change (len [d]) with 1%Z.
    rewrite Z.pow_add_r by (try apply len_nonneg; lia).
    unfold is_digit in Hd.
    change (10 ^ 1)%Z with 10%Z. lia.
Qed.

Lemma zeros_value (k : nat) (s : pystr) :
  int_of_digits (repeat (digit_char 0) k ++ s) = int_of_digits s.
Proof.
  unfold int_of_digits. rewrite fold_left_app. f_equal.
  induction k as [|k IH]; simpl; auto.
Qed.

Lemma is_digit_not_space (c : char) : is_digit c -> isspace c = false /\ c <> NL.
Proof.
  unfold is_digit, isspace, NL in *. intro H. split; [|lia].
  repeat (apply orb_false_iff; split);
    rewrite ?andb_false_iff, ?N.leb_gt, ?N.eqb_neq; lia.
Qed.

(** [f"{i:03d}"]: digits only, at least three of them, the value is
    [i], and nothing is added to a number that has three digits. *)
Lemma fmt_03d_spec (i : Z) :
  (0 <= i)%Z ->
  Forall is_digit (fmt_03d i)
  /\ (3 <= len (fmt_03d i))%Z
  /\ int_of_digits (fmt_03d i) = i
  /\ ((100 <= i)%Z -> fmt_03d i = str_of_int i /\ hd 0%N (fmt_03d i) <> 48%N).
Proof.
  intro Hi. destruct (str_of_int_spec i Hi) as [Hne [Hd [Hv Hh]]].
  unfold fmt_03d, zfill. split; [|split; [|split]].
  - apply Forall_app; split; auto.
    apply Forall_forall. intros c Hc. apply repeat_spec in Hc. subst.
    unfold is_digit, digit_char. lia.
  - rewrite len_app. unfold len. rewrite repeat_length. lia.
  - rewrite zeros_value. exact Hv.
  - intro H100. pose proof (digits_value_bound _ Hd) as Hb. rewrite Hv in Hb.
    assert (3 <= len (str_of_int i))%Z as Hl.
    { destruct (Z_lt_le_dec (len (str_of_int i)) 3) as [Hlt|]; auto.
      assert (10 ^ len (str_of_int i) <= 10 ^ 2)%Z.
      { apply Z.pow_le_mono_r; lia. }
      lia. }
    unfold len in Hl.
    replace (3 - List.length (str_of_int i))%nat with 0%nat by lia.
    split; [reflexivity|]. cbn [repeat app]. apply Hh. lia.
Qed.

End NumberFacts.

(** ** Line numbering *)

Section LineNumbers.

Lemma enumerate_length {A} (l : list A) (start : Z) :
  List.length (enumerate start l) = List.length l.
Proof. revert start; induction l; simpl; intros; auto. Qed.

Lemma enumerate_nth {A} (l : list A) (start : Z) (k : nat) (x : A) :
  nth_error l k = Some x ->
  nth_error (enumerate start l) k = Some ((start + Z.of_nat k)%Z, x).
Proof.
  revert start k; induction l as [|y l IH]; intros start [|k]; simpl;
    try discriminate; intro H.
  - injection H as ->. do 2 f_equal. lia.
  - rewrite (IH (start + 1)%Z k H). do 2 f_equal. lia.
Qed.

Lemma enumerate_from {A} (l : list A) (start : Z) :
  Forall (fun p => (start <= fst p)%Z /\ In (snd p) l) (enumerate start l).
Proof.
  revert start; induction l as [|y l IH]; intro start; simpl; constructor.
  - simpl. split; [lia|auto].
  - eapply Forall_impl; [|apply (IH (start + 1)%Z)].
    intros [i x] [H1 H2]. simpl in *. split; [lia|auto].
Qed.

Lemma add_line_numbers_join (markdown_text : pystr) :
  _add_line_numbers markdown_text = join [NL] (numbered_lines markdown_text).
Proof.
  unfold _add_line_numbers, numbered_lines, numbered_line. f_equal.
  apply map_ext. intros [i line]. now rewrite <- !app_assoc.
Qed.

Lemma numbered_line_shape (i : Z) (line : pystr) :
  (0 <= i)%Z -> ~ In NL line ->
  ~ In NL (numbered_line i line)
  /\ exists a b, numbered_line i line = 91%N :: a ++ 93%N :: b
                 /\ ~ In NL b.
Proof.
  intros Hi Hline. destruct (fmt_03d_spec i Hi) as [Hd _].
  assert (Hnl : ~ In NL (fmt_03d i)).
  { intro Hin. rewrite Forall_forall in Hd.
    apply (is_digit_not_space _ (Hd _ Hin)). reflexivity. }
  unfold numbered_line. split.
  - change (lit "[") with [91%N]. change (lit "] ") with [93%N; 32%N].
    intro Hin. simpl in Hin. destruct Hin as [Hin|Hin]; [discriminate|].
    apply in_app_or in Hin as [Hin|Hin]; [tauto|].
    simpl in Hin. destruct Hin as [Hin|[Hin|Hin]]; try discriminate; tauto.
  - exists (fmt_03d i), (32%N :: line). split; [reflexivity|].
    intros [Hin|Hin]; [discriminate|tauto].
Qed.

Lemma numbered_lines_shape (markdown_text : pystr) :
  Forall (fun l => ~ In NL l
                   /\ exists a b, l = 91%N :: a ++ 93%N :: b /\ ~ In NL b)
         (numbered_lines markdown_text).
Proof.
  unfold numbered_lines. apply Forall_map.
  pose proof (enumerate_from (split NL markdown_text) 1) as He.
  pose proof (split_no_sep NL markdown_text) as Hs.
  eapply Forall_impl; [|exact He]. intros [i line] [Hi Hin]. simpl in *.
  apply numbered_line_shape; [lia|].
  rewrite Forall_forall in Hs. now apply Hs.
Qed.

Lemma numbered_lines_length (markdown_text : pystr) :
  List.length (numbered_lines markdown_text)
  = List.length (split NL markdown_text).
Proof. unfold numbered_lines. now rewrite length_map, enumerate_length. Qed.

Lemma numbered_lines_nonempty (markdown_text : pystr) :
  numbered_lines markdown_text <> [].
Proof.
  intro H. apply (f_equal (@List.length _)) in H.
  rewrite numbered_lines_length in H.
  destruct (split_cons NL markdown_text) as [l [ls E]]. rewrite E in H.
  discriminate.
Qed.

(** The numbered text splits back into its numbered lines. *)
Lemma split_add_line_numbers (markdown_text : pystr) :
  split NL (_add_line_numbers markdown_text) = numbered_lines markdown_text.
Proof.
  rewrite add_line_numbers_join. apply split_join.
  - apply numbered_lines_nonempty.
  - eapply Forall_impl; [|apply numbered_lines_shape]. simpl. tauto.
Qed.

Lemma join_head (sep : pystr) (c : char) (x : pystr) (rest : list pystr) :
  join sep ((c :: x) :: rest) = c :: join sep (x :: rest).
Proof. destruct rest; reflexivity. Qed.

(** Stripping the numbered text only touches the end of its last line. *)
Lemma strip_add_line_numbers (markdown_text : pystr) :
  let nls := numbered_lines markdown_text in
  strip (_add_line_numbers markdown_text)
  = join [NL] (removelast nls ++ [rstrip (last nls [])]).
Proof.
  intro nls. rewrite add_line_numbers_join. fold nls.
  pose proof (numbered_lines_nonempty markdown_text) as Hne. fold nls in Hne.
  pose proof (numbered_lines_shape markdown_text) as Hshape. fold nls in Hshape.
  assert (Hlast : exists a b, last nls [] = 91%N :: a ++ 93%N :: b).
  { rewrite Forall_forall in Hshape.
    destruct (Hshape (last nls [])) as [_ [a [b [E _]]]].
    - destruct (exists_last Hne) as [l' [x E]]. rewrite E, last_last.
      apply in_or_app. right. now left.
    - now exists a, b. }
  assert (Hhead : exists t, join [NL] nls = 91%N :: t).
  { destruct nls as [|l ls]; [congruence|].
    inversion Hshape as [|? ? [_ [a [b [E _]]]] _]; subst.
    rewrite join_head. eauto. }
  destruct Hlast as [a [b Hlast]]. destruct Hhead as [t Hhead].
  unfold strip. rewrite Hhead, lstrip_nonspace by reflexivity.
  rewrite <- Hhead. rewrite (app_removelast_last [] Hne) at 1.
  destruct (join_snoc [NL] (removelast nls) (last nls [])) as [_ [_ ->]].
  destruct (join_snoc [NL] (removelast nls) (rstrip (last nls []))) as [_ [_ ->]].
  rewrite Hlast.
  change (91%N :: a ++ 93%N :: b) with ((91%N :: a) ++ 93%N :: b).
  rewrite app_assoc, rstrip_app_nonspace by reflexivity.
  rewrite (rstrip_app_nonspace (91%N :: a) b 93%N) by reflexivity.
  now rewrite <- app_assoc.
Qed.

(** The lines of the stripped numbered text. *)
Lemma split_strip_add_line_numbers (markdown_text : pystr) :
  let nls := numbered_lines markdown_text in
  split NL (strip (_add_line_numbers markdown_text))
  = removelast nls ++ [rstrip (last nls [])].
Proof.
  intro nls. rewrite strip_add_line_numbers. fold nls.
  pose proof (numbered_lines_nonempty markdown_text) as Hne. fold nls in Hne.
  pose proof (numbered_lines_shape markdown_text) as Hshape. fold nls in Hshape.
  rewrite (app_removelast_last [] Hne) in Hshape.
  apply Forall_app in Hshape as [Hinit Hl].
  apply split_join.
  - destruct (removelast nls); discriminate.
  - apply Forall_app; split.
    + eapply Forall_impl; [|exact Hinit]. simpl; tauto.
    + inversion Hl as [|? ? [Hnl _] _]; subst. constructor; auto.
      now apply rstrip_no_sep.
Qed.

End LineNumbers.

(** ** The fragment search *)

Section Search.

Lemma getitem_cons (x : pystr) (l : list pystr) (j : Z) :
  (0 < j)%Z -> getitem (x :: l) j = getitem l (j - 1).
Proof.
  intro Hj. unfold getitem.
  replace (Z.to_nat j) with (S (Z.to_nat (j - 1))) by lia. reflexivity.
Qed.

(** The inner loop answers [true] exactly when each remaining fragment
    line is found at its offset. *)
Lemma lines_match_enumerate (markdown_lines : list pystr) (i : Z)
      (content_lines : list pystr) :
  forall s,
    lines_match markdown_lines i (enumerate s content_lines) = true <->
    (forall j, (0 <= j < len content_lines)%Z ->
       (i + (s + j) < len markdown_lines)%Z
       /\ strip (getitem markdown_lines (i + (s + j)))
          = strip (getitem content_lines j)).
Proof.
  induction content_lines as [|x cl IH]; intro s; simpl.
  - split; auto. intros _ j Hj. unfold len in Hj; simpl in Hj; lia.
  - destruct (len markdown_lines <=? i + s)%Z eqn:Hlen; simpl.
    + apply Z.leb_le in Hlen. split; [discriminate|]. intro H.
      destruct (H 0%Z) as [Hlt _].
      * rewrite len_cons. pose proof (len_nonneg cl). lia.
      * lia.
    + apply Z.leb_gt in Hlen.
      destruct (str_eqb (strip (getitem markdown_lines (i + s))) (strip x)) eqn:Heq;
        simpl.
      * apply str_eqb_eq in Heq. rewrite IH. split; intros H j Hj.
        -- rewrite len_cons in Hj. destruct (Z.eq_dec j 0) as [->|Hnz].
           ++ rewrite Z.add_0_r. split; [lia|exact Heq].
           ++ destruct (H (j - 1)%Z ltac:(lia)) as [H1 H2].
              replace (s + 1 + (j - 1))%Z with (s + j)%Z in * by lia.
              rewrite getitem_cons by lia. auto.
        -- destruct (H (j + 1)%Z) as [H1 H2].
           { rewrite len_cons. lia. }
           replace (s + (j + 1))%Z with (s + 1 + j)%Z in * by lia.
           rewrite getitem_cons in H2 by lia.
           replace (j + 1 - 1)%Z with j in H2 by lia. auto.
      * split; [discriminate|]. intro H.
        destruct (H 0%Z) as [_ Hs].
        { rewrite len_cons. pose proof (len_nonneg cl). lia. }
        rewrite Z.add_0_r in Hs. change (getitem (x :: cl) 0) with x in Hs.
        rewrite Hs, str_eqb_refl in Heq. discriminate.
Qed.

Lemma lines_match_iff (markdown_lines content_lines : list pystr) (i : Z) :
  lines_match markdown_lines i (enumerate 0 content_lines) = true
  <-> matches_at markdown_lines content_lines i.
Proof.
  rewrite lines_match_enumerate. unfold matches_at.
  split; intros H j Hj; specialize (H j Hj); now rewrite ?Z.add_0_l in *.
Qed.

(** A fragment has a first line, so it cannot occur past the end. *)
Lemma matches_at_lt (markdown_lines content_lines : list pystr) (i : Z) :
  content_lines <> [] -> matches_at markdown_lines content_lines i ->
  (i < len markdown_lines)%Z
  /\ (i + len content_lines - 1 < len markdown_lines)%Z.
Proof.
  intros Hne H. destruct content_lines as [|x cl]; [congruence|].
  pose proof (len_nonneg cl) as Hcl. pose proof (len_cons x cl) as Hx.
  destruct (H 0%Z ltac:(lia)) as [H0 _].
  destruct (H (len cl) ltac:(lia)) as [H1 _]. lia.
Qed.

Lemma range_shift (a : Z) (n : nat) :
  List.map (fun k => (a + Z.of_nat k)%Z) (seq 1 n)
  = List.map (fun k => (a + 1 + Z.of_nat k)%Z) (seq 0 n).
Proof.
  rewrite <- seq_shift, map_map. apply map_ext. intro k. lia.
Qed.

(** The outer loop over [a, a+1, .., a+n-1]: either no candidate
    matches, or the answer is the first candidate that does. *)
Lemma find_loop_range (markdown_lines content_lines : list pystr) (n : nat) :
  forall a,
    let r := find_loop markdown_lines content_lines
               (List.map (fun k => (a + Z.of_nat k)%Z) (seq 0 n)) in
    (r = (-1, -1)%Z
     /\ forall k, (a <= k < a + Z.of_nat n)%Z ->
                  ~ matches_at markdown_lines content_lines k)
    \/ (exists i, r = (i, i + len content_lines - 1)%Z
                  /\ (a <= i < a + Z.of_nat n)%Z
                  /\ matches_at markdown_lines content_lines i
                  /\ forall k, (a <= k < i)%Z ->
                               ~ matches_at markdown_lines content_lines k).
Proof.
  induction n as [|n IH]; intro a; cbn zeta.
  - left. split; [reflexivity|]. intros k Hk. lia.
  - cbn [seq List.map find_loop]. rewrite Z.add_0_r.
    destruct (lines_match markdown_lines a (enumerate 0 content_lines)) eqn:Hm.
    + right. exists a. apply lines_match_iff in Hm.
      split; [reflexivity|]. split; [lia|]. split; [exact Hm|].
      intros k Hk. lia.
    + assert (Hna : ~ matches_at markdown_lines content_lines a).
      { intro H. apply lines_match_iff in H. congruence. }
      rewrite range_shift. destruct (IH (a + 1)%Z) as [[Hr Hno]|[i [Hr [Hi [Hmi Hno]]]]].
      * left. split; [exact Hr|]. intros k Hk.
        destruct (Z.eq_dec k a) as [->|]; auto. apply Hno. lia.
      * right. exists i.
        split; [exact Hr|]. split; [lia|]. split; [exact Hmi|].
        intros k Hk. destruct (Z.eq_dec k a) as [->|]; auto. apply Hno. lia.
Qed.

(** [_find_content_lines]: the sentinel when the fragment occurs nowhere
    from [start_from] on, otherwise the least index at which it occurs
    and the index of its last line. *)
Lemma find_content_lines_spec (markdown_lines : list pystr) (content : pystr)
      (start_from : Z) :
  let content_lines := split NL content in
  let r := _find_content_lines markdown_lines content start_from in
  (r = (-1, -1)%Z
   /\ forall k, (start_from <= k)%Z ->
                ~ matches_at markdown_lines content_lines k)
  \/ (exists i, r = (i, i + len content_lines - 1)%Z
                /\ (start_from <= i)%Z
                /\ matches_at markdown_lines content_lines i
                /\ forall k, (start_from <= k < i)%Z ->
                             ~ matches_at markdown_lines content_lines k).
Proof.
  cbn zeta. unfold _find_content_lines, range.
  assert (Hne : split NL content <> []).
  { destruct (split_cons NL content) as [l [ls ->]]. discriminate. }
  destruct (find_loop_range markdown_lines (split NL content)
              (Z.to_nat (len markdown_lines - start_from)) start_from)
    as [[Hr Hno]|[i [Hr [Hi [Hmi Hno]]]]].
  - left. split; [exact Hr|]. intros k Hk Hm.
    pose proof (matches_at_lt _ _ _ Hne Hm) as [Hlt _].
    apply (Hno k); [lia|exact Hm].
  - right. exists i.
    split; [exact Hr|]. split; [lia|]. split; [exact Hmi|exact Hno].
Qed.

End Search.

(** ** The mapping loop *)

Section MappingLoop.

Variable str_element : PageElement -> result pystr.
Variable md : pystr -> result pystr.

Lemma with_mappings_same (st : state) : with_mappings (self_mappings st) st = st.
Proof. now destruct st. Qed.

Lemma with_mappings_twice (ms ms' : list HtmlToMarkdownMapping) (st : state) :
  with_mappings ms (with_mappings ms' st) = with_mappings ms st.
Proof. reflexivity. Qed.

(** One iteration, whatever the state, does one of three things: it
    skips the element (cursor and stored list untouched), it raises
    because the element could not be serialised or rendered (cursor and
    stored list untouched), or it appends the record of the first
    occurrence of the element's fragment from the cursor on and moves the
    cursor to the last line of that occurrence. *)
Lemma mapping_body_cases (markdown_lines : list pystr) (element : PageElement)
      (current_line : Z) :
  ((is_Tag element = false
    \/ (forall id, element_get element data_mapping_id = Some id ->
                   truthy id = false)
    \/ (exists html rendered,
           str_element element = Ok html /\ md html = Ok rendered
           /\ (strip rendered = []
               \/ (forall k, (current_line <= k)%Z ->
                     ~ matches_at markdown_lines (split NL (strip rendered)) k)
               \/ (current_line < 0)%Z)))
   /\ forall st, mapping_body str_element md markdown_lines element
                   current_line st = (Ok current_line, st))
  \/ (exists e,
         is_Tag element = true
         /\ (str_element element = Raise e
             \/ exists html, str_element element = Ok html /\ md html = Raise e)
         /\ forall st, mapping_body str_element md markdown_lines element
                         current_line st = (Raise e, st))
  \/ (exists id html rendered i m,
         is_Tag element = true
         /\ element_get element data_mapping_id = Some id
         /\ truthy id = true
         /\ str_element element = Ok html
         /\ md html = Ok rendered
         /\ strip rendered <> []
         /\ (current_line <= i)%Z
         /\ matches_at markdown_lines (split NL (strip rendered)) i
         /\ (forall k, (current_line <= k < i)%Z ->
                       ~ matches_at markdown_lines (split NL (strip rendered)) k)
         /\ m = {| html_element_id := id;
                   html_content := html;
                   html_tag := element_name element;
                   markdown_line_start := i + 1;
                   markdown_line_end := i + len (split NL (strip rendered)) - 1 + 1;
                   markdown_content := strip rendered |}
         /\ forall st, mapping_body str_element md markdown_lines element
                         current_line st
                       = (Ok (i + len (split NL (strip rendered)) - 1)%Z,
                          with_mappings (self_mappings st ++ [m]) st)).
Proof.
  unfold mapping_body.
  destruct (is_Tag element) eqn:Htag;
    [|left; split; [now left|reflexivity]].
  destruct (element_get element data_mapping_id) as [id|] eqn:Hid;
    [|left; split; [right; left; discriminate|reflexivity]].
  destruct (truthy id) eqn:Htruthy;
    [|left; split; [right; left; congruence|reflexivity]].
  unfold bind, call, ret.
  destruct (str_element element) as [html|e] eqn:Hhtml;
    [|right; left; exists e; split; [reflexivity|split; [now left|reflexivity]]].
  destruct (md html) as [rendered|e] eqn:Hmd;
    [|right; left; exists e; split; [reflexivity|split; [right; eauto|reflexivity]]].
  destruct (truthy (strip rendered)) eqn:Hempty.
  2:{ left. split; [|reflexivity]. right; right. exists html, rendered.
      apply truthy_false in Hempty. auto. }
  destruct (find_content_lines_spec markdown_lines (strip rendered) current_line)
    as [[Hr Hno]|[i [Hr [Hi [Hmi Hno]]]]]; cbn zeta in *; rewrite Hr.
  - left. split; [|reflexivity]. right; right. exists html, rendered. auto.
  - destruct (Z.eqb_spec i (-1)) as [Hneg|Hneg]; cbn [negb].
    + left. split; [|reflexivity]. right; right. exists html, rendered.
      split; [reflexivity|]. split; [assumption|]. right; right. lia.
    + right; right. eexists id, html, rendered, i, _.
      repeat (split; [first [eassumption | reflexivity
                             | now apply truthy_nonempty]|]).
      intro st. reflexivity.
Qed.

(** The loop, whatever the state: its outcome and the records it appends
    do not depend on the state it starts from. *)
Lemma mapping_loop_frame (markdown_lines : list pystr)
      (elements : list PageElement) :
  forall current_line,
  exists r appended,
    forall st, mapping_loop str_element md markdown_lines elements current_line st
               = (r, with_mappings (self_mappings st ++ appended) st).
Proof.
  induction elements as [|element rest IH]; intro c; cbn [mapping_loop].
  - exists (Ok tt), []. intro st. unfold ret.
    now rewrite app_nil_r, with_mappings_same.
  - unfold bind.
    destruct (mapping_body_cases markdown_lines element c)
      as [[_ Hb]|[[e [_ [_ Hb]]]|[id [html [rendered [i [m H]]]]]]].
    + destruct (IH c) as [r [app Hl]]. exists r, app. intro st.
      now rewrite Hb, Hl.
    + exists (Raise e), []. intro st.
      now rewrite Hb, app_nil_r, with_mappings_same.
    + destruct H as (_ & _ & _ & _ & _ & _ & _ & _ & _ & _ & Hb).
      destruct (IH (i + len (split NL (strip rendered)) - 1)%Z) as [r [app Hl]].
      exists r, (m :: app). intro st. rewrite Hb, Hl. cbn [with_mappings self_mappings].
      now rewrite <- app_assoc.
Qed.

(** *** The invariant of the loop *)

Lemma chained_snoc (ms : list HtmlToMarkdownMapping) (m : HtmlToMarkdownMapping) :
  chained ms ->
  Forall (fun m' => (markdown_line_end m' <= markdown_line_start m)%Z) ms ->
  chained (ms ++ [m]).
Proof.
  induction ms as [|m1 ms IH]; intros Hc Hall; simpl; auto.
  inversion Hall as [|? ? H1 Hrest]; subst.
  destruct Hc as [Hhead Htail]. split; [|now apply IH].
  destruct ms as [|m2 ms]; simpl; auto.
Qed.

Lemma loop_invariant_body (markdown_lines : list pystr) (element : PageElement)
      (current_line : Z) (st st' : state) (r : result Z) :
  mapping_body str_element md markdown_lines element current_line st = (r, st') ->
  loop_invariant (len markdown_lines) current_line (self_mappings st) ->
  exists current_line',
    (current_line <= current_line')%Z
    /\ loop_invariant (len markdown_lines) current_line' (self_mappings st')
    /\ (forall c, r = Ok c -> c = current_line').
Proof.
  intros Hrun (Hc & Hb & Hch & Hend).
  destruct (mapping_body_cases markdown_lines element current_line)
    as [[_ Hbody]|[[e [_ [_ Hbody]]]|[id [html [rendered [i [m H]]]]]]].
  - rewrite Hbody in Hrun. injection Hrun as <- <-.
    exists current_line. split; [lia|]. split; [repeat split; auto|].
    intros c Hc'. congruence.
  - rewrite Hbody in Hrun. injection Hrun as <- <-.
    exists current_line. split; [lia|]. split; [repeat split; auto|].
    intros c Hc'. congruence.
  - destruct H as (_ & _ & _ & _ & _ & Hne & Hi & Hm & _ & Hrec & Hbody).
    rewrite Hbody in Hrun. injection Hrun as <- <-.
    set (n := len (split NL (strip rendered))) in *.
    assert (Hsplit : split NL (strip rendered) <> []).
    { destruct (split_cons NL (strip rendered)) as [l [ls ->]]. discriminate. }
    pose proof (matches_at_lt _ _ _ Hsplit Hm) as [Hlt Hlast]. fold n in Hlast.
    pose proof (len_split_pos NL (strip rendered)) as Hn. fold n in Hn.
    exists (i + n - 1)%Z. split; [lia|]. split; [|congruence].
    cbn [with_mappings self_mappings].
    assert (Hstart : markdown_line_start m = (i + 1)%Z) by now subst m.
    assert (Hstop : markdown_line_end m = (i + n - 1 + 1)%Z) by now subst m.
    assert (Hcontent : markdown_content m = strip rendered) by now subst m.
    split; [lia|]. split; [|split].
    + apply Forall_app; split; auto. constructor; [|constructor].
      unfold in_bounds. rewrite Hstart, Hstop, Hcontent. fold n. lia.
    + apply chained_snoc; auto.
      eapply Forall_impl; [|exact Hend]. intros m' Hm'. simpl in Hm'. lia.
    + apply Forall_app; split.
      * eapply Forall_impl; [|exact Hend]. intros m' Hm'. simpl in Hm'. lia.
      * constructor; [|constructor]. lia.
Qed.

(** The invariant holds when the loop stops, whether it ran to the end
    or an element's rendering raised. *)
Lemma loop_invariant_loop (markdown_lines : list pystr)
      (elements : list PageElement) :
  forall current_line st st' r,
    mapping_loop str_element md markdown_lines elements current_line st = (r, st') ->
    loop_invariant (len markdown_lines) current_line (self_mappings st) ->
    exists current_line',
      (current_line <= current_line')%Z
      /\ loop_invariant (len markdown_lines) current_line' (self_mappings st').
Proof.
  induction elements as [|element rest IH]; intros c st st' r Hrun Hinv;
    cbn [mapping_loop] in Hrun.
  - injection Hrun as _ <-. exists c. split; [lia|auto].
  - unfold bind in Hrun.
    destruct (mapping_body str_element md markdown_lines element c st)
      as [[c1|e] st1] eqn:Hbody.
    + destruct (loop_invariant_body _ _ _ _ _ _ Hbody Hinv) as [c' [Hle [Hinv' Hc']]].
      rewrite (Hc' c1 eq_refl) in Hrun.
      destruct (IH _ _ _ _ Hrun Hinv') as [c'' [Hle' Hinv'']].
      exists c''. split; [lia|auto].
    + injection Hrun as _ <-.
      destruct (loop_invariant_body _ _ _ _ _ _ Hbody Hinv) as [c' [Hle [Hinv' _]]].
      exists c'. auto.
Qed.

(** The loop appends at most one record per [Tag] it visits. *)
Lemma mapping_loop_count (markdown_lines : list pystr)
      (elements : list PageElement) :
  forall current_line st st' r,
    mapping_loop str_element md markdown_lines elements current_line st = (r, st') ->
    (List.length (self_mappings st')
     <= List.length (self_mappings st) + count_tags elements)%nat.
Proof.
  induction elements as [|element rest IH]; intros c st st' r Hrun;
    cbn [mapping_loop] in Hrun.
  - injection Hrun as _ <-. simpl. lia.
  - unfold bind in Hrun. unfold count_tags in *. cbn [List.map].
    destruct (mapping_body_cases markdown_lines element c)
      as [[_ Hbody]|[[e [_ [_ Hbody]]]|[id [html [rendered [i [m H]]]]]]].
    + rewrite Hbody in Hrun.
      apply IH in Hrun. destruct (is_Tag element); simpl; lia.
    + rewrite Hbody in Hrun. injection Hrun as _ <-. simpl.
      destruct (bool_dec (is_Tag element) true); simpl; lia.
    + destruct H as (Htag & _ & _ & _ & _ & _ & _ & _ & _ & _ & Hbody).
      rewrite Hbody in Hrun. apply IH in Hrun.
      cbn [with_mappings self_mappings] in Hrun. rewrite length_app in Hrun.
      rewrite Htag. simpl in *. lia.
Qed.

End MappingLoop.

(** ** Identifiers *)

Section Identifiers.

Lemma str_uuid_truthy (i : N) : truthy (str_uuid i) = true.
Proof.
  unfold str_uuid. destruct (firstn 8 (fmt_hex 32 i)); reflexivity.
Qed.

Lemma attrs_get_set (attrs : list (pystr * pystr)) (key value : pystr) :
  attrs_get (attrs_set attrs key value) key = Some value.
Proof.
  induction attrs as [|[k v] attrs IH]; simpl.
  - now rewrite str_eqb_refl.
  - destruct (str_eqb k key) eqn:E; simpl; now rewrite E.
Qed.

Lemma is_Tag_element_set (element : PageElement) (key value : pystr) :
  is_Tag (element_set element key value) = is_Tag element.
Proof. now destruct element. Qed.

(** [_add_unique_ids] never raises, leaves the stored list alone, keeps
    the shape of the top level and gives every [Tag] an identifier. *)
Lemma add_ids_loop_spec (elements : list PageElement) :
  forall st, exists elements' st',
    add_ids_loop elements st = (Ok elements', st')
    /\ self_mappings st' = self_mappings st
    /\ List.map is_Tag elements' = List.map is_Tag elements
    /\ tagged elements'.
Proof.
  induction elements as [|element rest IH]; intro st; cbn [add_ids_loop].
  - exists [], st. repeat split. constructor.
  - unfold bind, ret. destruct (is_Tag element) eqn:Htag.
    + unfold uuid4_str at 1.
      match goal with
      | |- context [add_ids_loop rest ?s] =>
          destruct (IH s) as [rest' [st' [Hrun [Hm [Hshape Hids]]]]]
      end.
      rewrite Hrun. eexists _, st'. split; [reflexivity|].
      split; [exact Hm|]. split.
      * cbn [List.map]. now rewrite is_Tag_element_set, Hshape.
      * constructor; auto. intros _.
        eexists. destruct element; [|discriminate]. cbn [element_set element_get].
        rewrite attrs_get_set. split; [reflexivity|apply str_uuid_truthy].
    + destruct (IH st) as [rest' [st' [Hrun [Hm [Hshape Hids]]]]].
      rewrite Hrun. exists (element :: rest'), st'. split; [reflexivity|].
      split; [exact Hm|]. split.
      * cbn [List.map]. now rewrite Hshape.
      * constructor; auto. congruence.
Qed.

Lemma same_entropy_next (st1 st2 : state) (ms1 ms2 : list HtmlToMarkdownMapping) :
  same_entropy st1 st2 ->
  same_entropy {| self_mappings := ms1; os_urandom := os_urandom st1;
                  urandom_calls := S (urandom_calls st1) |}
               {| self_mappings := ms2; os_urandom := os_urandom st2;
                  urandom_calls := S (urandom_calls st2) |}.
Proof.
  intros H k. cbn [os_urandom urandom_calls].
  specialize (H (S k)). now rewrite !Nat.add_succ_r in H.
Qed.

(** The annotated tree depends on the state through the entropy read
    only. *)
Lemma add_ids_loop_entropy (elements : list PageElement) :
  forall st1 st2,
    same_entropy st1 st2 ->
    fst (add_ids_loop elements st1) = fst (add_ids_loop elements st2)
    /\ same_entropy (snd (add_ids_loop elements st1))
                    (snd (add_ids_loop elements st2)).
Proof.
  induction elements as [|element rest IH]; intros st1 st2 H;
    cbn [add_ids_loop].
  - split; [reflexivity|exact H].
  - unfold bind, ret. destruct (is_Tag element).
    + unfold uuid4_str.
      pose proof (same_entropy_next st1 st2 (self_mappings st1) (self_mappings st2) H)
        as Hnext.
      destruct (IH _ _ Hnext) as [Hfst Hsnd].
      pose proof (H 0%nat) as H0. rewrite !Nat.add_0_r in H0. rewrite H0.
      set (s1 := Build_state (self_mappings st1) _ _) in *.
      set (s2 := Build_state (self_mappings st2) _ _) in *.
      destruct (add_ids_loop rest s1) as [[r1|e1] t1];
        destruct (add_ids_loop rest s2) as [[r2|e2] t2];
        cbn [fst snd] in *; try discriminate;
        split; try assumption; congruence.
    + destruct (IH _ _ H) as [Hfst Hsnd].
      destruct (add_ids_loop rest st1) as [[r1|e1] t1];
        destruct (add_ids_loop rest st2) as [[r2|e2] t2];
        cbn [fst snd] in *; try discriminate;
        split; try assumption; congruence.
Qed.

End Identifiers.

(** ** A conversion, step by step *)

Section Conversion.

Variable BeautifulSoup : pystr -> result Soup.
Variable str_soup : Soup -> result pystr.
Variable str_element : PageElement -> result pystr.
Variable md : pystr -> result pystr.

Lemma add_unique_ids_spec (soup : Soup) (st : state) :
  exists soup' st',
    _add_unique_ids soup st = (Ok soup', st')
    /\ self_mappings st' = self_mappings st
    /\ List.map is_Tag (children soup') = List.map is_Tag (children soup)
    /\ tagged (children soup').
Proof.
  unfold _add_unique_ids, bind, ret.
  destruct (add_ids_loop_spec (children soup) st)
    as [cs [st' [Hrun [Hm [Hshape Hids]]]]].
  rewrite Hrun. now exists {| children := cs |}, st'.
Qed.

(** The [try] block unfolded: the steps in the order the program takes
    them, each either raising or handing its value to the next. *)
Lemma convert_try_run (html_text : pystr) (st : state) :
  convert_try BeautifulSoup str_soup str_element md html_text st =
  match BeautifulSoup html_text with
  | Raise e => (Raise e, st)
  | Ok parsed =>
      match _add_unique_ids parsed st with
      | (Raise e, st1) => (Raise e, st1)
      | (Ok soup, st1) =>
          match str_soup soup with
          | Raise e => (Raise e, st1)
          | Ok html =>
              match md html with
              | Raise e => (Raise e, st1)
              | Ok markdown_result =>
                  match mapping_loop str_element md (split NL markdown_result)
                          (children soup) 0 (with_mappings [] st1) with
                  | (Raise e, st2) => (Raise e, st2)
                  | (Ok _, st2) =>
                      (Ok (converted_result html_text markdown_result html
                             (self_mappings st2)), st2)
                  end
              end
          end
      end
  end.
Proof.
  unfold convert_try, bind, call.
  destruct (BeautifulSoup html_text) as [parsed|e]; [|reflexivity].
  destruct (_add_unique_ids parsed st) as [[soup|e] st1]; [|reflexivity].
  destruct (str_soup soup) as [html|e] eqn:Hhtml; [|reflexivity].
  destruct (md html) as [markdown_result|e]; [|reflexivity].
  unfold _create_mapping, bind, set_mappings. fold (with_mappings [] st1).
  destruct (mapping_loop str_element md (split NL markdown_result)
              (children soup) 0 (with_mappings [] st1)) as [[[]|e] st2];
    [|reflexivity].
  reflexivity.
Qed.

(** A conversion that answers ["converted"] went through every step. *)
Lemma converted_inv (html_text : pystr) (st st' : state) (d : Dict) :
  convert_with_mapping BeautifulSoup str_soup str_element md html_text st = (d, st') ->
  dict_get d "status" = Some (VStr (lit "converted")) ->
  exists parsed soup st1 html markdown_result,
    BeautifulSoup html_text = Ok parsed
    /\ _add_unique_ids parsed st = (Ok soup, st1)
    /\ str_soup soup = Ok html
    /\ md html = Ok markdown_result
    /\ mapping_loop str_element md (split NL markdown_result) (children soup) 0
         (with_mappings [] st1) = (Ok tt, st')
    /\ d = converted_result html_text markdown_result html (self_mappings st').
Proof.
  unfold convert_with_mapping. rewrite convert_try_run.
  destruct (BeautifulSoup html_text) as [parsed|e] eqn:Hparse;
    [|intros [= <- <-]; discriminate].
  destruct (_add_unique_ids parsed st) as [[soup|e] st1] eqn:Hids;
    [|intros [= <- <-]; discriminate].
  destruct (str_soup soup) as [html|e] eqn:Hhtml;
    [|intros [= <- <-]; discriminate].
  destruct (md html) as [markdown_result|e] eqn:Hmd;
    [|intros [= <- <-]; discriminate].
  destruct (mapping_loop str_element md (split NL markdown_result)
              (children soup) 0 (with_mappings [] st1)) as [[[]|e] st2] eqn:Hloop;
    [|intros [= <- <-]; discriminate].
  intros [= <- <-] _.
  now exists parsed, soup, st1, html, markdown_result.
Qed.

(** The stored list always satisfies the loop invariant of the last
    conversion that reached the mapping phase: in particular every stored
    record starts at line 1 or later. *)
Lemma reachable_starts (st : state) :
  reachable BeautifulSoup str_soup str_element md st ->
  Forall (fun m => (1 <= markdown_line_start m)%Z) (self_mappings st).
Proof.
  induction 1 as [entropy calls|html_text st Hreach IH].
  - constructor.
  - unfold convert_with_mapping. rewrite convert_try_run.
    destruct (BeautifulSoup html_text) as [parsed|e]; [|exact IH].
    destruct (add_unique_ids_spec parsed st) as [soup [st1 [-> [Hm _]]]].
    destruct (str_soup soup) as [html|e]; [|cbn [snd]; now rewrite Hm].
    destruct (md html) as [markdown_result|e]; [|cbn [snd]; now rewrite Hm].
    destruct (mapping_loop str_element md (split NL markdown_result)
                (children soup) 0 (with_mappings [] st1)) as [r st2] eqn:Hloop.
    apply loop_invariant_loop in Hloop.
    + destruct Hloop as [c [_ (_ & Hb & _)]].
      assert (Hst2 : Forall (fun m => (1 <= markdown_line_start m)%Z)
                            (self_mappings st2)).
      { eapply Forall_impl; [|exact Hb]. intros m (Hs & _). lia. }
      destruct r as [[]|e]; exact Hst2.
    + cbn [with_mappings self_mappings]. repeat split; try constructor. lia.
Qed.

End Conversion.

(** * The claims *)

Section Claims.

Variable BeautifulSoup : pystr -> result Soup.
Variable str_soup : Soup -> result pystr.
Variable str_element : PageElement -> result pystr.
Variable md : pystr -> result pystr.

(** Claim C2, as the code has it. For an element with a non-empty trimmed
    fragment that occurs at or after the cursor, [_find_content_lines]
    returns the least index [i >= cursor] at which every fragment line
    matches the document line at the same offset (both stripped); the
    iteration appends a record with [markdown_line_start = i + 1] and
    [markdown_line_end = i + n] for a fragment of [n] lines, and the loop
    goes on with the cursor [i + n - 1], the 0-based last line of the
    match; a later search never answers an index before that line. *)
Theorem reconciliation_search_least
        (markdown_lines : list pystr) (element : PageElement)
        (current_line : Z) (st : state) (id html rendered : pystr) :
  (0 <= current_line)%Z ->
  is_Tag element = true ->
  element_get element data_mapping_id = Some id ->
  truthy id = true ->
  str_element element = Ok html ->
  md html = Ok rendered ->
  strip rendered <> [] ->
  (exists k, (current_line <= k)%Z
             /\ matches_at markdown_lines (split NL (strip rendered)) k) ->
  let fragment := split NL (strip rendered) in
  exists i m,
    (current_line <= i)%Z
    /\ matches_at markdown_lines fragment i
    /\ (forall k, (current_line <= k < i)%Z ->
                  ~ matches_at markdown_lines fragment k)
    /\ _find_content_lines markdown_lines (strip rendered) current_line
       = (i, i + len fragment - 1)%Z
    /\ mapping_body str_element md markdown_lines element current_line st
       = (Ok (i + len fragment - 1)%Z,
          with_mappings (self_mappings st ++ [m]) st)
    /\ markdown_line_start m = (i + 1)%Z
    /\ markdown_line_end m = (i + len fragment)%Z
    /\ markdown_content m = strip rendered
    /\ (forall content,
          let r := _find_content_lines markdown_lines content
                     (i + len fragment - 1) in
          r = (-1, -1)%Z \/ (i + len fragment - 1 <= fst r)%Z)
    /\ forall rest,
         mapping_loop str_element md markdown_lines (element :: rest)
           current_line st
         = mapping_loop str_element md markdown_lines rest
             (i + len fragment - 1)
             (with_mappings (self_mappings st ++ [m]) st).
Proof.
  intros Hc Htag Hid Htruthy Hhtml Hmd Hne [k [Hk Hmk]] fragment.
  destruct (mapping_body_cases str_element md markdown_lines element current_line)
    as [[Hskip _]|[[e [_ [Hraise _]]]|(id' & html' & rendered' & i & m & H)]].
  - exfalso. destruct Hskip as [Hs|[Hs|(html' & rendered' & Hh & Hr & Hs)]].
    + congruence.
    + specialize (Hs id Hid). congruence.
    + assert (html' = html) by congruence. subst html'.
      assert (rendered' = rendered) by congruence. subst rendered'.
      destruct Hs as [Hs|[Hs|Hs]]; [congruence|exact (Hs k Hk Hmk)|lia].
  - exfalso. destruct Hraise as [Hr|[html' [Hh Hr]]]; [congruence|].
    assert (html' = html) by congruence. subst html'. congruence.
  - destruct H as (_ & Hid' & _ & Hh & Hr & _ & Hi & Hmi & Hleast & Hm & Hbody).
    assert (html' = html) by congruence. subst html'.
    assert (rendered' = rendered) by congruence. subst rendered'.
    fold fragment in Hmi, Hleast, Hm, Hbody.
    exists i, m. split; [exact Hi|]. split; [exact Hmi|]. split; [exact Hleast|].
    split.
    { destruct (find_content_lines_spec markdown_lines (strip rendered) current_line)
        as [[_ Hno]|[i' [Hr' [Hi' [Hmi' Hleast']]]]]; cbn zeta in *.
      - exfalso. exact (Hno i Hi Hmi).
      - fold fragment in Hr', Hmi', Hleast'.
        assert (i' = i).
        { destruct (Z.lt_trichotomy i' i) as [Hlt|[Heq|Hgt]]; auto.
          - exfalso. apply (Hleast i'); [lia|exact Hmi'].
          - exfalso. apply (Hleast' i); [lia|exact Hmi]. }
        subst i'. exact Hr'. }
    split; [apply Hbody|].
    split; [now subst m|]. split; [subst m; cbn; lia|]. split; [now subst m|].
    split.
    { intro content. cbn zeta.
      destruct (find_content_lines_spec markdown_lines content (i + len fragment - 1))
        as [[Hr' _]|[i' [Hr' [Hi' _]]]]; cbn zeta in *.
      + now left.
      + right. rewrite Hr'. exact Hi'. }
    intro rest. cbn [mapping_loop]. unfold bind. now rewrite Hbody.
Qed.

(** Claim C7. A top-level element whose rendering succeeds produces no
    record in exactly two cases: its rendering is empty once trimmed, or
    its trimmed rendering occurs nowhere at or after the cursor. In both
    the cursor and the state are unchanged, and the iteration returns
    normally in every case, so the conversion goes on. *)
Theorem skipped_elements
        (parsed soup : Soup) (st0 st1 : state)
        (markdown_lines : list pystr) (element : PageElement)
        (current_line : Z) (st : state) (html rendered : pystr) :
  _add_unique_ids parsed st0 = (Ok soup, st1) ->
  In element (children soup) ->
  is_Tag element = true ->
  (0 <= current_line)%Z ->
  str_element element = Ok html ->
  md html = Ok rendered ->
  exists current_line' st',
    mapping_body str_element md markdown_lines element current_line st
    = (Ok current_line', st')
    /\ ((strip rendered = []
         \/ forall k, (current_line <= k)%Z ->
              ~ matches_at markdown_lines (split NL (strip rendered)) k)
        <-> self_mappings st' = self_mappings st)
    /\ (self_mappings st' = self_mappings st ->
        current_line' = current_line /\ st' = st)
    /\ (self_mappings st' <> self_mappings st ->
        exists m, self_mappings st' = self_mappings st ++ [m]).
Proof.
  intros Hids Hin Htag Hc Hhtml Hmd.
  destruct (add_unique_ids_spec parsed st0) as [soup' [st1' [Hids' [_ [_ Htagged]]]]].
  rewrite Hids in Hids'. injection Hids' as <- <-.
  unfold tagged in Htagged. rewrite Forall_forall in Htagged.
  destruct (Htagged element Hin Htag) as [id [Hid Htruthy]].
  assert (Hgrow : forall m, self_mappings st ++ [m] <> self_mappings st).
  { intros m E. apply (f_equal (@List.length _)) in E.
    rewrite length_app in E. simpl in E. lia. }
  destruct (mapping_body_cases str_element md markdown_lines element current_line)
    as [[Hskip Hbody]|[[e [_ [Hraise _]]]|(id' & html' & rendered' & i & m & H)]].
  - exists current_line, st. split; [apply Hbody|].
    split; [|split; [auto|congruence]].
    split; [reflexivity|]. intros _.
    destruct Hskip as [Hs|[Hs|(html' & rendered' & Hh & Hr & Hs)]].
    + congruence.
    + specialize (Hs id Hid). congruence.
    + assert (html' = html) by congruence. subst html'.
      assert (rendered' = rendered) by congruence. subst rendered'.
      destruct Hs as [Hs|[Hs|Hs]]; [now left|now right|lia].
  - exfalso. destruct Hraise as [Hr|[html' [Hh Hr]]]; [congruence|].
    assert (html' = html) by congruence. subst html'. congruence.
  - destruct H as (_ & _ & _ & Hh & Hr & Hne & Hi & Hmi & _ & _ & Hbody).
    assert (html' = html) by congruence. subst html'.
    assert (rendered' = rendered) by congruence. subst rendered'.
    eexists _, _. split; [apply Hbody|]. cbn [with_mappings self_mappings].
    split; [|split].
    + split.
      * intros [Hs|Hs]; [congruence|]. exfalso. exact (Hs i Hi Hmi).
      * intro E. exfalso. exact (Hgrow m E).
    + intro E. exfalso. exact (Hgrow m E).
    + intros _. now exists m.
Qed.

(** Every [Tag] that can be serialised and rendered lets the loop run to
    its end. *)
Lemma mapping_loop_ok (markdown_lines : list pystr) (elements : list PageElement) :
  (forall element, In element elements -> is_Tag element = true ->
     exists html rendered, str_element element = Ok html /\ md html = Ok rendered) ->
  forall current_line st,
  exists st', mapping_loop str_element md markdown_lines elements current_line st
              = (Ok tt, st').
Proof.
  induction elements as [|element rest IH]; intros Hok c st; cbn [mapping_loop].
  - now exists st.
  - unfold bind.
    assert (Hrest : forall element0, In element0 rest -> is_Tag element0 = true ->
              exists html rendered,
                str_element element0 = Ok html /\ md html = Ok rendered).
    { intros x Hx. apply Hok. now right. }
    destruct (mapping_body_cases str_element md markdown_lines element c)
      as [[_ Hbody]|[[e [Htag [Hraise _]]]|(id & html & rendered & i & m & H)]].
    + rewrite Hbody. now apply IH.
    + exfalso. destruct (Hok element (or_introl eq_refl) Htag) as [h [r [Hh Hr]]].
      destruct Hraise as [Hx|[h' [Hh' Hx]]]; [congruence|].
      assert (h' = h) by congruence. subst h'. congruence.
    + destruct H as (_ & _ & _ & _ & _ & _ & _ & _ & _ & _ & Hbody).
      rewrite Hbody. now apply IH.
Qed.

Lemma count_tags_map (l1 l2 : list PageElement) :
  List.map is_Tag l1 = List.map is_Tag l2 -> count_tags l1 = count_tags l2.
Proof. unfold count_tags. now intros ->. Qed.

(** Claim C10. Every record of a successful conversion satisfies
    [1 <= markdown_line_start <= markdown_line_end <= number of lines of
    the unnumbered Markdown], and spans exactly as many lines as its
    [markdown_content] has. *)
Theorem records_in_bounds
        (html_text : pystr) (st st' : state) (d : Dict)
        (parsed soup : Soup) (st1 : state) (html markdown_result : pystr) :
  convert_with_mapping BeautifulSoup str_soup str_element md html_text st = (d, st') ->
  dict_get d "status" = Some (VStr (lit "converted")) ->
  BeautifulSoup html_text = Ok parsed ->
  _add_unique_ids parsed st = (Ok soup, st1) ->
  str_soup soup = Ok html ->
  md html = Ok markdown_result ->
  dict_get d "mappings"
  = Some (VList (List.map (fun m => VDict (_mapping_to_dict m)) (self_mappings st')))
  /\ Forall (in_bounds (len (split NL markdown_result))) (self_mappings st').
Proof.
  intros Hrun Hstatus Hparse Hids Hhtml Hmd.
  destruct (converted_inv _ _ _ _ _ _ _ _ Hrun Hstatus)
    as (parsed' & soup' & st1' & html' & raw' & Hp & Hi & Hh & Hm & Hloop & Hd).
  rewrite Hparse in Hp. injection Hp as <-.
  rewrite Hids in Hi. injection Hi as <- <-.
  rewrite Hhtml in Hh. injection Hh as <-.
  rewrite Hmd in Hm. injection Hm as <-.
  split; [now subst d|].
  apply loop_invariant_loop in Hloop.
  - destruct Hloop as [c [_ (_ & Hb & _)]]. exact Hb.
  - cbn [with_mappings self_mappings]. repeat split; try constructor. lia.
Qed.

(** Claim C6. On a non-empty input that parses and whose document and
    top-level elements serialise and render without raising, the
    conversion answers ["converted"] and returns at most as many mapping
    records as the parsed root has top-level [Tag] children. *)
Theorem converted_at_most_one_record_per_element
        (html_text : pystr) (st : state)
        (parsed soup : Soup) (st1 : state) (html markdown_result : pystr) :
  html_text <> [] ->
  BeautifulSoup html_text = Ok parsed ->
  _add_unique_ids parsed st = (Ok soup, st1) ->
  str_soup soup = Ok html ->
  md html = Ok markdown_result ->
  (forall element, In element (children soup) -> is_Tag element = true ->
     exists h r, str_element element = Ok h /\ md h = Ok r) ->
  let d := fst (convert_with_mapping BeautifulSoup str_soup str_element md
                  html_text st) in
  dict_get d "status" = Some (VStr (lit "converted"))
  /\ exists records,
       dict_get d "mappings" = Some (VList records)
       /\ (List.length records <= count_tags (children parsed))%nat.
Proof.
  intros _ Hparse Hids Hhtml Hmd Hok d. subst d.
  unfold convert_with_mapping. rewrite convert_try_run, Hparse, Hids, Hhtml, Hmd.
  destruct (mapping_loop_ok (split NL markdown_result) (children soup) Hok 0
              (with_mappings [] st1)) as [st2 Hloop].
  rewrite Hloop. cbn [fst]. split; [reflexivity|].
  eexists. split; [reflexivity|]. rewrite length_map.
  apply mapping_loop_count in Hloop. cbn [with_mappings self_mappings] in Hloop.
  destruct (add_unique_ids_spec parsed st) as (soup' & st1' & Hids' & _ & Hshape & _).
  rewrite Hids in Hids'. injection Hids' as <- <-.
  rewrite <- (count_tags_map _ _ Hshape). simpl in Hloop. lia.
Qed.

(** Claim C4. The [markdown_result] of a successful conversion is the
    numbered text, stripped: line [k] (from 1) of the raw Markdown becomes
    ["[" ++ digits ++ "] " ++ line], where the digits are the decimal
    writing of [k] padded with zeros to three places and never cut (a
    number of four digits or more is written in full); stripping only
    removes trailing whitespace of the last numbered line, so the result
    has as many lines as the raw Markdown. *)
Theorem numbered_markdown_result
        (html_text : pystr) (st st' : state) (d : Dict)
        (parsed soup : Soup) (st1 : state) (html markdown_result : pystr) :
  convert_with_mapping BeautifulSoup str_soup str_element md html_text st = (d, st') ->
  dict_get d "status" = Some (VStr (lit "converted")) ->
  BeautifulSoup html_text = Ok parsed ->
  _add_unique_ids parsed st = (Ok soup, st1) ->
  str_soup soup = Ok html ->
  md html = Ok markdown_result ->
  let nls := numbered_lines markdown_result in
  let numbered := strip (join [NL] nls) in
  dict_get d "markdown_result" = Some (VStr numbered)
  /\ (forall k line, nth_error (split NL markdown_result) k = Some line ->
        nth_error nls k = Some (numbered_line (Z.of_nat k + 1) line))
  /\ (forall i, (1 <= i)%Z ->
        Forall is_digit (fmt_03d i)
        /\ (3 <= len (fmt_03d i))%Z
        /\ int_of_digits (fmt_03d i) = i
        /\ ((1000 <= i)%Z -> fmt_03d i = str_of_int i /\ hd 0%N (fmt_03d i) <> 48%N))
  /\ split NL numbered = removelast nls ++ [rstrip (last nls [])]
  /\ len (split NL numbered) = len (split NL markdown_result).
Proof.
  intros Hrun Hstatus Hparse Hids Hhtml Hmd nls numbered.
  destruct (converted_inv _ _ _ _ _ _ _ _ Hrun Hstatus)
    as (parsed' & soup' & st1' & html' & raw' & Hp & Hi & Hh & Hm & Hloop & Hd).
  rewrite Hparse in Hp. injection Hp as <-.
  rewrite Hids in Hi. injection Hi as <- <-.
  rewrite Hhtml in Hh. injection Hh as <-.
  rewrite Hmd in Hm. injection Hm as <-.
  assert (Hnum : strip (_add_line_numbers markdown_result) = numbered).
  { unfold numbered, nls. now rewrite add_line_numbers_join. }
  split; [subst d; cbn; now rewrite Hnum|].
  split.
  { intros k line Hk. unfold nls, numbered_lines.
    rewrite nth_error_map, (enumerate_nth _ 1 k line Hk). cbn [option_map].
    now replace (1 + Z.of_nat k)%Z with (Z.of_nat k + 1)%Z by lia. }
  split.
  { intros i Hi. destruct (fmt_03d_spec i ltac:(lia)) as (H1 & H2 & H3 & H4).
    repeat (split; [assumption|]). intro Hbig. apply H4. lia. }
  assert (Hsplit : split NL numbered = removelast nls ++ [rstrip (last nls [])]).
  { rewrite <- Hnum. apply split_strip_add_line_numbers. }
  split; [exact Hsplit|].
  rewrite Hsplit. unfold len. rewrite length_app, <- numbered_lines_length.
  fold nls. cbn [List.length].
  pose proof (numbered_lines_nonempty markdown_result) as Hne. fold nls in Hne.
  rewrite (app_removelast_last [] Hne) at 2. rewrite length_app. cbn [List.length].
  reflexivity.
Qed.

Lemma error_result_except (html_text : pystr) (e : exn) :
  error_result html_text e (convert_except html_text e).
Proof. repeat split. Qed.


(** Once the mapping phase is reached the stored list is replaced: what
    the engine holds after the call does not depend on what it held
    before. *)
Lemma mapping_phase_resets (html_text : pystr) (st : state)
      (old : list HtmlToMarkdownMapping)
      (parsed soup : Soup) (st1 : state) (html markdown_result : pystr) :
  BeautifulSoup html_text = Ok parsed ->
  _add_unique_ids parsed st = (Ok soup, st1) ->
  str_soup soup = Ok html ->
  md html = Ok markdown_result ->
  self_mappings (snd (convert_with_mapping BeautifulSoup str_soup str_element md
                        html_text (with_mappings old st)))
  = self_mappings (snd (convert_with_mapping BeautifulSoup str_soup str_element md
                          html_text st)).
Proof.
  intros Hp Hi Hs Hm. unfold convert_with_mapping. rewrite !convert_try_run.
  rewrite Hp, Hi, Hs, Hm.
  assert (He : same_entropy st (with_mappings old st)) by (intro k; reflexivity).
  destruct (add_ids_loop_entropy (children parsed) _ _ He) as [Hfst _].
  destruct (add_ids_loop_spec (children parsed) (with_mappings old st))
    as (cs & t & Hrun & _).
  unfold _add_unique_ids, bind, ret in *. rewrite Hrun in *.
  destruct (add_ids_loop (children parsed) st) as [[cs'|e] t']; [|discriminate].
  cbn [fst] in Hfst. injection Hfst as ->. injection Hi as <- <-.
  rewrite Hs, Hm.
  destruct (mapping_loop_frame str_element md (split NL markdown_result)
              (children {| children := cs |}) 0) as (r & appended & Hloop).
  rewrite !Hloop. destruct r as [[]|e]; reflexivity.
Qed.

(** Claim C9. When the call raises before the mapping phase (in the
    parser, or in the serialiser or the renderer of the whole document), it
    returns the error dictionary, with [mappings = []], and leaves the
    stored list as it was: every later [find_html_by_line] answers as
    before the call. The stored list is replaced only once the mapping
    phase is reached: from then on it no longer depends on what was stored
    before. *)
Theorem failure_before_mapping_keeps_records
        (html_text : pystr) (st : state) (e : exn) :
  raises_before_mapping BeautifulSoup str_soup md html_text st e ->
  let r := convert_with_mapping BeautifulSoup str_soup str_element md html_text st in
  error_result html_text e (fst r)
  /\ self_mappings (snd r) = self_mappings st
  /\ (forall line_number,
        find_html_by_line line_number (snd r) = find_html_by_line line_number st)
  /\ (forall html_text' old parsed soup st1 html markdown_result,
        BeautifulSoup html_text' = Ok parsed ->
        _add_unique_ids parsed st = (Ok soup, st1) ->
        str_soup soup = Ok html ->
        md html = Ok markdown_result ->
        self_mappings (snd (convert_with_mapping BeautifulSoup str_soup str_element
                              md html_text' (with_mappings old st)))
        = self_mappings (snd (convert_with_mapping BeautifulSoup str_soup
                                str_element md html_text' st))).
Proof.
  intros H r.
  assert (Hm : self_mappings (snd r) = self_mappings st).
  { subst r. unfold convert_with_mapping. rewrite convert_try_run.
    destruct H as [Hp|(parsed & soup & st1 & Hp & Hi & Hs)]; rewrite Hp;
      [reflexivity|].
    destruct (add_unique_ids_spec parsed st) as (soup' & st1' & Hi' & Hmap & _).
    rewrite Hi in Hi'. injection Hi' as <- <-. rewrite Hi.
    destruct Hs as [Hs|(html & Hs & Hmd)]; rewrite Hs; try rewrite Hmd;
      exact Hmap. }
  split.
  { subst r. unfold convert_with_mapping. rewrite convert_try_run.
    destruct H as [Hp|(parsed & soup & st1 & Hp & Hi & [Hs|(html & Hs & Hmd)])];
      rewrite Hp; try rewrite Hi; try rewrite Hs; try rewrite Hmd;
      apply error_result_except. }
  split; [exact Hm|]. split.
  - intro line_number. unfold find_html_by_line. now rewrite Hm.
  - intros html_text' old parsed soup st1 html markdown_result.
    apply mapping_phase_resets.
Qed.

Lemma find_by_line_loop_cases (mappings : list HtmlToMarkdownMapping)
      (line_number : Z) :
  (find_by_line_loop mappings line_number = []
   /\ forall m, In m mappings -> ~ covers m line_number)
  \/ (exists m, first_cover mappings line_number m
                /\ find_by_line_loop mappings line_number = _mapping_to_dict m).
Proof.
  induction mappings as [|m ms IH]; cbn [find_by_line_loop].
  - left. split; [reflexivity|]. intros m [].
  - destruct ((markdown_line_start m <=? line_number)%Z
              && (line_number <=? markdown_line_end m)%Z) eqn:E.
    + right. exists m. split; [|reflexivity].
      exists [], ms. split; [reflexivity|]. split; [|intros m' []].
      apply andb_true_iff in E as [E1 E2]. unfold covers. lia.
    + assert (Hm : ~ covers m line_number).
      { unfold covers. apply andb_false_iff in E as [E|E]; lia. }
      destruct IH as [[Hr Hno]|[m0 [(before & after & Hs & Hc & Hb) Hr]]].
      * left. split; [exact Hr|]. intros m' [<-|Hin]; auto.
      * right. exists m0. split; [|exact Hr].
        exists (m :: before), after. split; [now rewrite Hs|].
        split; [exact Hc|]. intros m' [<-|Hin]; auto.
Qed.

(** Claim C5. On the list an engine has stored, [find_html_by_line]
    returns the six fields of the first record, in document order, whose
    inclusive range holds the line (identifier, tag, HTML, first line,
    last line and Markdown of that record, under their six keys), and the
    empty dictionary exactly when no record holds it (it is a total
    function: nothing is raised); hence the empty dictionary for every
    line number [<= 0] and for every line number past the end of every
    record. *)
Theorem find_html_by_line_first_cover (st : state) (line_number : Z) :
  reachable BeautifulSoup str_soup str_element md st ->
  (forall m, first_cover (self_mappings st) line_number m ->
             find_html_by_line line_number st = _mapping_to_dict m
             /\ find_html_by_line line_number st
                = [ ("html_element_id", VStr (html_element_id m));
                    ("html_tag", VStr (html_tag m));
                    ("html_content", VStr (html_content m));
                    ("markdown_line_start", VInt (markdown_line_start m));
                    ("markdown_line_end", VInt (markdown_line_end m));
                    ("markdown_content", VStr (markdown_content m)) ]%string)
  /\ ((forall m, In m (self_mappings st) -> ~ covers m line_number) <->
      find_html_by_line line_number st = [])
  /\ (find_html_by_line line_number st = []
      \/ exists m, first_cover (self_mappings st) line_number m)
  /\ ((line_number <= 0)%Z -> find_html_by_line line_number st = [])
  /\ ((forall m, In m (self_mappings st) -> (markdown_line_end m < line_number)%Z) ->
      find_html_by_line line_number st = []).
Proof.
  intro Hreach. apply reachable_starts in Hreach. rewrite Forall_forall in Hreach.
  unfold find_html_by_line.
  assert (Hnone : (forall m, In m (self_mappings st) -> ~ covers m line_number) ->
                  find_by_line_loop (self_mappings st) line_number = []).
  { intro Hno.
    destruct (find_by_line_loop_cases (self_mappings st) line_number)
      as [[Hr _]|[m [(before & after & Hs & Hc & _) _]]]; [exact Hr|].
    exfalso. apply (Hno m); [|exact Hc]. rewrite Hs. apply in_or_app.
    right. now left. }
  assert (Hfirst : forall m, first_cover (self_mappings st) line_number m ->
                     find_by_line_loop (self_mappings st) line_number
                     = _mapping_to_dict m).
  { intros m (before & after & Hs & Hc & Hb).
    destruct (find_by_line_loop_cases (self_mappings st) line_number)
      as [[_ Hno]|[m0 [(before0 & after0 & Hs0 & Hc0 & Hb0) Hr]]].
    + exfalso. apply (Hno m); [|exact Hc]. rewrite Hs. apply in_or_app.
      right. now left.
    + rewrite Hr. f_equal.
      (* the first covering record is unique *)
      clear Hr Hnone Hreach. rewrite Hs in Hs0. clear Hs.
      revert before0 Hs0 Hb0.
      induction before as [|x before IH]; intros [|y before0] Hs0 Hb0;
        cbn [app] in Hs0; injection Hs0 as Hhd Htl.
      * congruence.
      * exfalso. subst y. apply (Hb0 m); [now left|exact Hc].
      * exfalso. subst x. apply (Hb m0); [now left|exact Hc0].
      * apply (IH (fun m' H => Hb m' (or_intror H)) before0 Htl
                  (fun m' H => Hb0 m' (or_intror H))). }
  split; [|split; [|split; [|split]]].
  - intros m Hm. split; [now apply Hfirst|].
    rewrite (Hfirst m Hm). reflexivity.
  - split; [exact Hnone|]. intros Hempty m Hin Hc.
    destruct (find_by_line_loop_cases (self_mappings st) line_number)
      as [[_ Hno]|[m0 [_ Hr]]]; [exact (Hno m Hin Hc)|].
    rewrite Hr in Hempty. discriminate.
  - destruct (find_by_line_loop_cases (self_mappings st) line_number)
      as [[Hr _]|[m [Hf _]]]; [now left|right; now exists m].
  - intro Hle. apply Hnone. intros m Hin Hc. specialize (Hreach m Hin).
    unfold covers in Hc. lia.
  - intro Hpast. apply Hnone. intros m Hin Hc. specialize (Hpast m Hin).
    unfold covers in Hc. lia.
Qed.


End Claims.

(** * The engine at work *)

(** The scenario of the specification: two top-level elements mapped to
    lines 1 and 3, and the numbered Markdown. *)
Example title_scenario :
  let r := Fixture.convert Fixture.title_doc Fixture.engine in
  Fixture.rendered Fixture.title_doc
  = lit "# Title" ++ [NL; NL] ++ lit "Hello **world**"
  /\ List.map (fun m => (html_tag m, line_range m)) (self_mappings (snd r))
     = [(lit "h1", (1, 1)%Z); (lit "p", (3, 3)%Z)]
  /\ dict_get (fst r) "markdown_result"
     = Some (VStr (lit "[001] # Title" ++ [NL] ++ lit "[002] " ++ [NL]
                   ++ lit "[003] Hello **world**")).
Proof. vm_compute. repeat split. Qed.

(** What does hold of the ranges of a conversion: each record starts no
    earlier than the line on which the previous one ends. *)
Lemma records_chained
      (BeautifulSoup : pystr -> result Soup) (str_soup : Soup -> result pystr)
      (str_element : PageElement -> result pystr) (md : pystr -> result pystr)
      (html_text : pystr) (st st' : state) (d : Dict) :
  convert_with_mapping BeautifulSoup str_soup str_element md html_text st = (d, st') ->
  dict_get d "status" = Some (VStr (lit "converted")) ->
  chained (self_mappings st').
Proof.
  intros Hrun Hstatus.
  destruct (converted_inv _ _ _ _ _ _ _ _ Hrun Hstatus)
    as (parsed & soup & st1 & html & raw & _ & _ & _ & _ & Hloop & _).
  apply loop_invariant_loop in Hloop.
  - destruct Hloop as [c [_ (_ & _ & Hch & _)]]. exact Hch.
  - cbn [with_mappings self_mappings]. repeat split; try constructor. lia.
Qed.

(** Claim C1 fails on the code. Two equal paragraphs render to the three
    lines [a], [], [a]; the first is found on line 1 and the cursor stays
    on that line (index 0), so the search for the second finds line 1
    again: two records, of different elements, with the same range
    [[1, 1]]. *)
Theorem equal_paragraphs_share_a_line :
  let r := Fixture.convert Fixture.twin_doc Fixture.engine in
  dict_get (fst r) "status" = Some (VStr (lit "converted"))
  /\ split NL (Fixture.rendered Fixture.twin_doc) = [lit "a"; []; lit "a"]
  /\ exists m1 m2,
       self_mappings (snd r) = [m1; m2]
       /\ html_element_id m1 <> html_element_id m2
       /\ line_range m1 = (1, 1)%Z
       /\ line_range m2 = (1, 1)%Z
       /\ overlap (line_range m1) (line_range m2).
Proof.
  cbn zeta. split; [vm_compute; reflexivity|]. split; [vm_compute; reflexivity|].
  eexists _, _. split; [vm_compute; reflexivity|].
  split; [cbn [html_element_id]; discriminate|].
  split; [reflexivity|]. split; [reflexivity|].
  exists 1%Z. cbn. lia.
Qed.

(** Claim C2 fails as stated in its last clause. In the document of two
    equal paragraphs the raw lines are [a], [], [a]: the first paragraph
    is found at index 0 and claims that line, the cursor becomes
    [0 + 1 - 1 = 0], and the search for the second paragraph from that
    cursor answers index 0 again, so both records are on line 1. Likewise
    in the five lines [a], [], [b], [], [b]: the fragment of the three
    lines [a], [], [b] claims the lines 0 to 2, the cursor is then 2, and
    the search for [b] from that cursor answers index 2, a line already
    claimed. *)
Lemma next_search_lands_on_claimed_line :
  (let lines := split NL (Fixture.rendered Fixture.twin_doc) in
   let st := with_mappings [] (Fixture.annotated_state Fixture.twin_doc) in
   lines = [lit "a"; []; lit "a"]
   /\ _find_content_lines lines (lit "a") 0 = (0, 0)%Z
   /\ fst (mapping_body Fixture.str_element Fixture.md lines
             (Fixture.top Fixture.twin_doc 0) 0 st) = Ok (0 + 1 - 1)%Z
   /\ _find_content_lines lines (lit "a") (0 + 1 - 1) = (0, 0)%Z
   /\ List.map line_range
        (self_mappings (snd (Fixture.convert Fixture.twin_doc Fixture.engine)))
      = [(1, 1)%Z; (1, 1)%Z])
  /\ (let lines := [lit "a"; []; lit "b"; []; lit "b"] in
      let fragment := lit "a" ++ [NL; NL] ++ lit "b" in
      _find_content_lines lines fragment 0 = (0, 2)%Z
      /\ _find_content_lines lines (lit "b") 2 = (2, 2)%Z
      /\ ~ (forall content,
              let r := _find_content_lines lines content 2 in
              r = (-1, -1)%Z \/ (2 < fst r)%Z)).
Proof.
  cbn zeta. split.
  - split; [vm_compute; reflexivity|]. split; [vm_compute; reflexivity|].
    split; [vm_compute; reflexivity|]. split; vm_compute; reflexivity.
  - split; [vm_compute; reflexivity|]. split; [vm_compute; reflexivity|].
    intro H. specialize (H (lit "b")). cbn zeta in H.
    destruct H as [H|H]; vm_compute in H; discriminate.
Qed.


(** ** The theorems on concrete runs *)

(** Claim C2 at the paragraph of the title document: its fragment is
    first found at index 2 of the three raw lines. *)
Lemma reconciliation_search_least_witness :
  let lines := split NL (Fixture.rendered Fixture.title_doc) in
  let element := Fixture.top Fixture.title_doc 1 in
  let st := with_mappings [] (Fixture.annotated_state Fixture.title_doc) in
  matches_at lines (split NL (lit "Hello **world**")) 2
  /\ exists i m,
       i = 2%Z
       /\ _find_content_lines lines (lit "Hello **world**") 0 = (i, i)
       /\ mapping_body Fixture.str_element Fixture.md lines element 0 st
          = (Ok i, with_mappings [m] st)
       /\ line_range m = (3, 3)%Z.
Proof.
  cbn zeta.
  assert (Hm : matches_at (split NL (Fixture.rendered Fixture.title_doc))
                          (split NL (lit "Hello **world**")) 2).
  { apply lines_match_iff. vm_compute. reflexivity. }
  split; [exact Hm|].
  destruct (reconciliation_search_least Fixture.str_element Fixture.md
              (split NL (Fixture.rendered Fixture.title_doc))
              (Fixture.top Fixture.title_doc 1) 0
              (with_mappings [] (Fixture.annotated_state Fixture.title_doc))
              (lit "02468acf-1357-4bde-8246-8acf13579bde")
              (Fixture.decode (Fixture.top Fixture.title_doc 1))
              (lit "Hello **world**"))
    as (i & m & _ & _ & _ & Hfind & Hbody & Hstart & Hstop & _).
  - lia.
  - reflexivity.
  - vm_compute. reflexivity.
  - reflexivity.
  - reflexivity.
  - vm_compute. reflexivity.
  - vm_compute. discriminate.
  - exists 2%Z. split; [lia|exact Hm].
  - assert (Hi : i = 2%Z).
    { vm_compute in Hfind. now injection Hfind as <-. }
    subst i. exists 2%Z, m. split; [reflexivity|].
    split; [vm_compute; reflexivity|]. split; [exact Hbody|].
    unfold line_range. rewrite Hstart, Hstop. reflexivity.
Defined.

(** Claim C7 at the blank paragraph of the mixed document: it renders to
    nothing and is skipped. *)
Lemma skipped_elements_witness :
  let lines := split NL (Fixture.rendered Fixture.mixed_doc) in
  let element := Fixture.top Fixture.mixed_doc 0 in
  let st := with_mappings [] (Fixture.annotated_state Fixture.mixed_doc) in
  is_Tag element = true
  /\ Fixture.md (Fixture.decode element) = Ok []
  /\ mapping_body Fixture.str_element Fixture.md lines element 0 st = (Ok 0%Z, st).
Proof.
  cbn zeta. split; [reflexivity|]. split; [vm_compute; reflexivity|].
  destruct (skipped_elements Fixture.str_element Fixture.md
              (Fixture.parsed Fixture.mixed_doc) (Fixture.annotated Fixture.mixed_doc)
              Fixture.engine (Fixture.annotated_state Fixture.mixed_doc)
              (split NL (Fixture.rendered Fixture.mixed_doc))
              (Fixture.top Fixture.mixed_doc 0) 0
              (with_mappings [] (Fixture.annotated_state Fixture.mixed_doc))
              (Fixture.decode (Fixture.top Fixture.mixed_doc 0)) [])
    as (c & st' & Hbody & Hiff & Hsame & _).
  - reflexivity.
  - left. reflexivity.
  - reflexivity.
  - lia.
  - reflexivity.
  - vm_compute. reflexivity.
  - destruct (Hsame (proj1 Hiff (or_introl eq_refl))) as [-> ->]. exact Hbody.
Defined.

(** Claim C10 on the title document. *)
Lemma records_in_bounds_witness :
  let r := Fixture.convert Fixture.title_doc Fixture.engine in
  dict_get (fst r) "status" = Some (VStr (lit "converted"))
  /\ Forall (in_bounds (len (split NL (Fixture.rendered Fixture.title_doc))))
            (self_mappings (snd r)).
Proof.
  cbn zeta. split; [vm_compute; reflexivity|].
  apply (records_in_bounds Fixture.BeautifulSoup Fixture.str_soup
           Fixture.str_element Fixture.md Fixture.title_doc Fixture.engine
           (snd (Fixture.convert Fixture.title_doc Fixture.engine))
           (fst (Fixture.convert Fixture.title_doc Fixture.engine))
           (Fixture.parsed Fixture.title_doc) (Fixture.annotated Fixture.title_doc)
           (Fixture.annotated_state Fixture.title_doc)
           (Fixture.serialised Fixture.title_doc)).
  - apply surjective_pairing.
  - vm_compute. reflexivity.
  - reflexivity.
  - reflexivity.
  - reflexivity.
  - reflexivity.
Defined.

(** Claim C6 on the mixed document: three top-level elements, at most
    three records. *)
Lemma converted_at_most_one_record_per_element_witness :
  let d := fst (Fixture.convert Fixture.mixed_doc Fixture.engine) in
  Fixture.mixed_doc <> []
  /\ count_tags (children (Fixture.parsed Fixture.mixed_doc)) = 3%nat
  /\ dict_get d "status" = Some (VStr (lit "converted"))
  /\ exists records,
       dict_get d "mappings" = Some (VList records)
       /\ (List.length records <= 3)%nat.
Proof.
  cbn zeta. split; [discriminate|]. split; [reflexivity|].
  apply (converted_at_most_one_record_per_element Fixture.BeautifulSoup
           Fixture.str_soup Fixture.str_element Fixture.md Fixture.mixed_doc
           Fixture.engine (Fixture.parsed Fixture.mixed_doc)
           (Fixture.annotated Fixture.mixed_doc)
           (Fixture.annotated_state Fixture.mixed_doc)
           (Fixture.serialised Fixture.mixed_doc)
           (Fixture.rendered Fixture.mixed_doc)).
  - discriminate.
  - reflexivity.
  - reflexivity.
  - reflexivity.
  - reflexivity.
  - intros element _ _. eexists _, _. split; reflexivity.
Defined.

(** Claim C4 on the title document. *)
Lemma numbered_markdown_result_witness :
  let d := fst (Fixture.convert Fixture.title_doc Fixture.engine) in
  let raw := Fixture.rendered Fixture.title_doc in
  dict_get d "status" = Some (VStr (lit "converted"))
  /\ dict_get d "markdown_result"
     = Some (VStr (strip (join [NL] (numbered_lines raw))))
  /\ len (split NL (strip (join [NL] (numbered_lines raw)))) = len (split NL raw).
Proof.
  cbn zeta. split; [vm_compute; reflexivity|].
  destruct (numbered_markdown_result Fixture.BeautifulSoup Fixture.str_soup
              Fixture.str_element Fixture.md Fixture.title_doc Fixture.engine
              (snd (Fixture.convert Fixture.title_doc Fixture.engine))
              (fst (Fixture.convert Fixture.title_doc Fixture.engine))
              (Fixture.parsed Fixture.title_doc) (Fixture.annotated Fixture.title_doc)
              (Fixture.annotated_state Fixture.title_doc)
              (Fixture.serialised Fixture.title_doc)
              (Fixture.rendered Fixture.title_doc))
    as (Hresult & _ & _ & _ & Hcount).
  - apply surjective_pairing.
  - vm_compute. reflexivity.
  - reflexivity.
  - reflexivity.
  - reflexivity.
  - reflexivity.
  - split; [exact Hresult|exact Hcount].
Defined.

(** Claim C9: a rejected document after the title document leaves the two
    records of the title document in place. *)
Lemma failure_before_mapping_keeps_records_witness :
  let st := snd (Fixture.convert Fixture.title_doc Fixture.engine) in
  let r := Fixture.convert (lit "<p>") st in
  List.length (self_mappings st) = 2%nat
  /\ dict_get (fst r) "mappings" = Some (VList [])
  /\ self_mappings (snd r) = self_mappings st
  /\ forall line_number,
       find_html_by_line line_number (snd r) = find_html_by_line line_number st.
Proof.
  cbn zeta. split; [vm_compute; reflexivity|].
  destruct (failure_before_mapping_keeps_records Fixture.BeautifulSoup
              Fixture.str_soup Fixture.str_element Fixture.md (lit "<p>")
              (snd (Fixture.convert Fixture.title_doc Fixture.engine))
              (Exception (lit "unsupported markup")))
    as ((_ & _ & Hmappings & _) & Hsame & Hfind & _).
  - left. reflexivity.
  - split; [exact Hmappings|]. split; [exact Hsame|exact Hfind].
Defined.

(** Claim C5 on the engine that converted the title document: nothing at
    line 0 and nothing past line 3; at line 3 the six fields of the record
    of the paragraph. *)
Lemma find_html_by_line_first_cover_witness :
  let st := snd (Fixture.convert Fixture.title_doc Fixture.engine) in
  reachable Fixture.BeautifulSoup Fixture.str_soup Fixture.str_element Fixture.md st
  /\ find_html_by_line 0 st = []
  /\ find_html_by_line 4 st = []
  /\ exists m1 m2,
       self_mappings st = [m1; m2]
       /\ first_cover (self_mappings st) 3 m2
       /\ find_html_by_line 3 st
          = [ ("html_element_id", VStr (lit "02468acf-1357-4bde-8246-8acf13579bde"));
              ("html_tag", VStr (lit "p"));
              ("html_content", VStr (html_content m2));
              ("markdown_line_start", VInt 3);
              ("markdown_line_end", VInt 3);
              ("markdown_content", VStr (lit "Hello **world**")) ]%string.
Proof.
  cbn zeta.
  assert (Hreach : reachable Fixture.BeautifulSoup Fixture.str_soup
                     Fixture.str_element Fixture.md
                     (snd (Fixture.convert Fixture.title_doc Fixture.engine))).
  { apply reach_convert, reach_init. }
  assert (Hlist : exists m1 m2,
             self_mappings (snd (Fixture.convert Fixture.title_doc Fixture.engine))
             = [m1; m2]
             /\ covers m2 3 /\ ~ covers m1 3 /\ markdown_line_end m2 = 3%Z
             /\ markdown_line_end m1 = 1%Z
             /\ _mapping_to_dict m2
                = [ ("html_element_id", VStr (lit "02468acf-1357-4bde-8246-8acf13579bde"));
                    ("html_tag", VStr (lit "p"));
                    ("html_content", VStr (html_content m2));
                    ("markdown_line_start", VInt 3);
                    ("markdown_line_end", VInt 3);
                    ("markdown_content", VStr (lit "Hello **world**")) ]%string).
  { eexists _, _. split; [vm_compute; reflexivity|].
    split; [unfold covers; cbn; lia|]. split; [unfold covers; cbn; lia|].
    split; [reflexivity|]. split; reflexivity. }
  destruct Hlist as (m1 & m2 & Hlist & Hc2 & Hc1 & He2 & He1 & Hdict).
  assert (Hfirst : first_cover
                     (self_mappings (snd (Fixture.convert Fixture.title_doc Fixture.engine)))
                     3 m2).
  { exists [m1], []. split; [exact Hlist|]. split; [exact Hc2|].
    intros m' [<-|[]]. exact Hc1. }
  split; [exact Hreach|].
  split.
  { destruct (find_html_by_line_first_cover Fixture.BeautifulSoup Fixture.str_soup
                Fixture.str_element Fixture.md _ 0 Hreach) as (_ & _ & _ & Hle & _).
    apply Hle. lia. }
  split.
  { destruct (find_html_by_line_first_cover Fixture.BeautifulSoup Fixture.str_soup
                Fixture.str_element Fixture.md _ 4 Hreach) as (_ & _ & _ & _ & Hpast).
    apply Hpast. rewrite Hlist. intros m [<-|[<-|[]]]; lia. }
  exists m1, m2. split; [exact Hlist|]. split; [exact Hfirst|].
  destruct (find_html_by_line_first_cover Fixture.BeautifulSoup Fixture.str_soup
              Fixture.str_element Fixture.md _ 3 Hreach) as (Hcover & _).
  destruct (Hcover m2 Hfirst) as [Hfound _]. rewrite Hfound. exact Hdict.
Defined.

(** * Further properties of the code *)

(** ** [_find_content_lines] *)

Section SearchFurther.

Lemma getitem_map_strip (l : list pystr) (k : Z) :
  getitem (List.map strip l) k = strip (getitem l k).
Proof.
  unfold getitem. change (@nil N) with (strip []) at 1. apply map_nth.
Qed.

Lemma lines_match_stripped (l1 l2 : list pystr) (i : Z) :
  List.map strip l1 = List.map strip l2 ->
  forall c1 c2 s,
    List.map strip c1 = List.map strip c2 ->
    lines_match l1 i (enumerate s c1) = lines_match l2 i (enumerate s c2).
Proof.
  intros Hl.
  assert (Hlen : len l1 = len l2).
  { unfold len. f_equal. rewrite <- (length_map strip l1), Hl. apply length_map. }
  assert (Hget : forall k, strip (getitem l1 k) = strip (getitem l2 k)).
  { intro k. now rewrite <- !getitem_map_strip, Hl. }
  induction c1 as [|x c1 IH]; intros [|y c2] s Hc; cbn [List.map] in Hc;
    try discriminate; cbn [enumerate lines_match]; [reflexivity|].
  injection Hc as Hx Hc. rewrite Hlen, Hget, Hx, (IH c2 (s + 1)%Z Hc).
  reflexivity.
Qed.

Lemma find_loop_stripped (l1 l2 c1 c2 : list pystr) (candidates : list Z) :
  List.map strip l1 = List.map strip l2 ->
  List.map strip c1 = List.map strip c2 ->
  find_loop l1 c1 candidates = find_loop l2 c2 candidates.
Proof.
  intros Hl Hc.
  assert (Hlen : len c1 = len c2).
  { unfold len. f_equal. rewrite <- (length_map strip c1), Hc. apply length_map. }
  induction candidates as [|i rest IH]; cbn [find_loop]; [reflexivity|].
  now rewrite (lines_match_stripped l1 l2 i Hl c1 c2 0 Hc), Hlen, IH.
Qed.

(** Property X1. The search sees lines only through [strip]: two documents, and two
    fragments, whose lines agree once stripped get the same answer. *)
Theorem find_content_lines_stripped
        (lines1 lines2 : list pystr) (content1 content2 : pystr) (start_from : Z) :
  List.map strip lines1 = List.map strip lines2 ->
  List.map strip (split NL content1) = List.map strip (split NL content2) ->
  _find_content_lines lines1 content1 start_from
  = _find_content_lines lines2 content2 start_from.
Proof.
  intros Hl Hc. unfold _find_content_lines.
  assert (Hlen : len lines1 = len lines2).
  { unfold len. f_equal. rewrite <- (length_map strip lines1), Hl.
    apply length_map. }
  rewrite Hlen. now apply find_loop_stripped.
Qed.

(** Property X2. A search that found the fragment at [i] finds it at [i] again from
    every start between the first start and [i]; a search that found
    nothing finds nothing from any later start. *)
Theorem find_content_lines_restart
        (markdown_lines : list pystr) (content : pystr) (start_from later : Z) :
  (0 <= start_from <= later)%Z ->
  let r := _find_content_lines markdown_lines content start_from in
  (r = (-1, -1)%Z ->
   _find_content_lines markdown_lines content later = (-1, -1)%Z)
  /\ ((later <= fst r)%Z ->
      _find_content_lines markdown_lines content later = r).
Proof.
  intros Hs r. subst r.
  destruct (find_content_lines_spec markdown_lines content start_from)
    as [[Hr Hno]|[i [Hr [Hi [Hm Hleast]]]]]; cbn zeta in *; rewrite Hr.
  - split; [|cbn [fst]; lia]. intros _.
    destruct (find_content_lines_spec markdown_lines content later)
      as [[Hr' _]|[i' [_ [Hi' [Hm' _]]]]]; cbn zeta in *; [exact Hr'|].
    exfalso. apply (Hno i'); [lia|exact Hm'].
  - split; [intro H; injection H as H _; lia|]. cbn [fst]. intro Hle.
    destruct (find_content_lines_spec markdown_lines content later)
      as [[_ Hno']|[i' [Hr' [Hi' [Hm' Hleast']]]]]; cbn zeta in *.
    + exfalso. apply (Hno' i); [lia|exact Hm].
    + assert (i' = i).
      { destruct (Z.lt_trichotomy i' i) as [Hlt|[Heq|Hgt]]; auto.
        - exfalso. apply (Hleast i'); [lia|exact Hm'].
        - exfalso. apply (Hleast' i); [lia|exact Hm]. }
      subst i'. exact Hr'.
Qed.

(** Property X3. A fragment is never found where it does not fit: when fewer lines
    remain from [start_from] than the fragment has (in particular when
    [start_from] is at or past the end, or the document has no line), the
    answer is the sentinel; an answer that is not the sentinel lies within
    the document. *)
Theorem find_content_lines_fits
        (markdown_lines : list pystr) (content : pystr) (start_from : Z) :
  (0 <= start_from)%Z ->
  let n := len (split NL content) in
  let r := _find_content_lines markdown_lines content start_from in
  ((len markdown_lines - start_from < n)%Z -> r = (-1, -1)%Z)
  /\ (r <> (-1, -1)%Z ->
      (start_from <= fst r)%Z /\ (fst r <= snd r)%Z
      /\ (snd r < len markdown_lines)%Z
      /\ (snd r - fst r + 1 = n)%Z).
Proof.
  intros Hs n r. subst n r.
  assert (Hne : split NL content <> []).
  { destruct (split_cons NL content) as [l [ls ->]]. discriminate. }
  pose proof (len_split_pos NL content) as Hn.
  destruct (find_content_lines_spec markdown_lines content start_from)
    as [[Hr Hno]|[i [Hr [Hi [Hm Hleast]]]]]; cbn zeta in *; rewrite Hr.
  - split; [reflexivity|congruence].
  - pose proof (matches_at_lt _ _ _ Hne Hm) as [Hlt Hlast].
    split; [intro Hfew; lia|]. intros _. cbn [fst snd]. lia.
Qed.

End SearchFurther.

(** ** [_add_line_numbers] *)

Section LineNumbersFurther.

Lemma join_split (sep : char) (s : pystr) : join [sep] (split sep s) = s.
Proof.
  induction s as [|c s IH]; [reflexivity|]. cbn [split].
  destruct (split_cons sep s) as [l [ls E]]. rewrite E in *.
  destruct (char_eqb c sep) eqn:Hc.
  - apply N.eqb_eq in Hc. subst c.
    change (join [sep] ([] :: l :: ls)) with (sep :: join [sep] (l :: ls)).
    now rewrite IH.
  - rewrite join_head. now rewrite IH.
Qed.

Lemma skipn_numbered_line (i : Z) (line : pystr) :
  skipn (List.length (fmt_03d i) + 3) (numbered_line i line) = line.
Proof.
  unfold numbered_line. change (lit "[") with [91%N].
  change (lit "] ") with [93%N; 32%N].
  replace ([91%N] ++ fmt_03d i ++ [93%N; 32%N] ++ line)
    with (([91%N] ++ fmt_03d i ++ [93%N; 32%N]) ++ line)
    by (now rewrite <- !app_assoc).
  rewrite skipn_app.
  assert (Hlen : List.length ([91%N] ++ fmt_03d i ++ [93%N; 32%N])
                 = (List.length (fmt_03d i) + 3)%nat).
  { rewrite !length_app. cbn [List.length]. lia. }
  rewrite skipn_all2 by lia. rewrite Hlen, Nat.sub_diag. reflexivity.
Qed.

Lemma unnumber_enumerate (lines : list pystr) :
  forall start,
    List.map (fun '(i, l) => skipn (List.length (fmt_03d i) + 3) l)
             (enumerate start
                (List.map (fun '(i, line) => numbered_line i line)
                          (enumerate start lines)))
    = lines.
Proof.
  induction lines as [|line lines IH]; intro start; cbn [enumerate List.map];
    [reflexivity|].
  now rewrite skipn_numbered_line, IH.
Qed.

(** Property X4. Numbering loses nothing: cutting from each line of the numbered text
    the bracketed number and the space (as many characters as the number
    of that line has digits, and three more) and joining the lines again
    gives the text back. *)
Theorem add_line_numbers_inverse (markdown_text : pystr) :
  join [NL]
       (List.map (fun '(i, l) => skipn (List.length (fmt_03d i) + 3) l)
                 (enumerate 1 (split NL (_add_line_numbers markdown_text))))
  = markdown_text.
Proof.
  rewrite split_add_line_numbers. unfold numbered_lines.
  rewrite unnumber_enumerate. apply join_split.
Qed.

Lemma nth_error_removelast {A} (l : list A) (k : nat) :
  (S k < List.length l)%nat -> nth_error (removelast l) k = nth_error l k.
Proof.
  revert k; induction l as [|x l IH]; intros k Hk; [simpl in Hk; lia|].
  destruct l as [|y l]; [simpl in Hk; lia|].
  destruct k as [|k]; [reflexivity|].
  change (removelast (x :: y :: l)) with (x :: removelast (y :: l)).
  cbn [nth_error]. apply IH. simpl in *. lia.
Qed.

Lemma nth_error_last {A} (l : list A) (d : A) (k : nat) :
  S k = List.length l -> nth_error l k = Some (last l d).
Proof.
  revert k; induction l as [|x l IH]; intros k Hk; [discriminate|].
  destruct l as [|y l].
  - simpl in Hk. assert (k = 0%nat) by lia. subst. reflexivity.
  - destruct k as [|k]; [simpl in Hk; lia|].
    change (last (x :: y :: l) d) with (last (y :: l) d).
    cbn [nth_error]. apply IH. simpl in *. lia.
Qed.

(** Every line of the stripped numbered text carries its own number: line
    [k] (from 0) is the bracketed number [k + 1] followed by a space and
    the line of the text, except that the last line has lost its trailing
    whitespace. *)
Lemma stripped_numbered_line (markdown_text : pystr) (k : nat) (line : pystr) :
  nth_error (split NL markdown_text) k = Some line ->
  exists rest,
    nth_error (split NL (strip (_add_line_numbers markdown_text))) k
    = Some (lit "[" ++ fmt_03d (Z.of_nat k + 1) ++ lit "]" ++ rest)
    /\ (rest = 32%N :: line \/ rest = rstrip (32%N :: line)).
Proof.
  intro Hk. rewrite split_strip_add_line_numbers. cbn zeta.
  set (nls := numbered_lines markdown_text).
  assert (Hnth : nth_error nls k = Some (numbered_line (Z.of_nat k + 1) line)).
  { unfold nls, numbered_lines.
    rewrite nth_error_map, (enumerate_nth _ 1 k line Hk). cbn [option_map].
    now replace (1 + Z.of_nat k)%Z with (Z.of_nat k + 1)%Z by lia. }
  assert (Hshape : forall i, numbered_line i line
                             = (91%N :: fmt_03d i) ++ 93%N :: 32%N :: line).
  { intro i. unfold numbered_line. change (lit "[") with [91%N].
    change (lit "] ") with [93%N; 32%N]. cbn [app]. reflexivity. }
  assert (Hlt : (k < List.length nls)%nat).
  { apply nth_error_Some. rewrite Hnth. discriminate. }
  destruct (Nat.eq_dec (S k) (List.length nls)) as [Hlast|Hnot].
  - exists (rstrip (32%N :: line)). split; [|now right].
    assert (Hrl : List.length (removelast nls) = k).
    { pose proof (numbered_lines_nonempty markdown_text) as Hne. fold nls in Hne.
      pose proof (f_equal (@List.length _) (app_removelast_last [] Hne)) as E.
      rewrite length_app in E. cbn [List.length] in E. lia. }
    rewrite nth_error_app2 by lia. rewrite Hrl, Nat.sub_diag. cbn [nth_error].
    rewrite (nth_error_last nls [] k Hlast) in Hnth. injection Hnth as ->.
    rewrite Hshape, rstrip_app_nonspace by reflexivity.
    change (lit "[") with [91%N]. change (lit "]") with [93%N].
    cbn [app]. reflexivity.
  - exists (32%N :: line). split; [|now left].
    assert (Hrl : (k < List.length (removelast nls))%nat).
    { pose proof (numbered_lines_nonempty markdown_text) as Hne. fold nls in Hne.
      pose proof (f_equal (@List.length _) (app_removelast_last [] Hne)) as E.
      rewrite length_app in E. cbn [List.length] in E. lia. }
    rewrite nth_error_app1 by exact Hrl.
    rewrite nth_error_removelast by lia. rewrite Hnth, Hshape.
    change (lit "[") with [91%N]. change (lit "]") with [93%N].
    cbn [app]. reflexivity.
Qed.

End LineNumbersFurther.

(** ** [_add_unique_ids] *)

Section IdentifiersFurther.

Lemma after_reads_0 (st : state) : after_reads 0 st = st.
Proof. destruct st. unfold after_reads. cbn. now rewrite Nat.add_0_r. Qed.

Lemma count_tags_cons (element : PageElement) (rest : list PageElement) :
  count_tags (element :: rest)
  = ((if is_Tag element then 1 else 0) + count_tags rest)%nat.
Proof. unfold count_tags. cbn [List.map]. now destruct (is_Tag element). Qed.

(** The loop of [_add_unique_ids] never raises; it reads [os.urandom]
    once per top-level [Tag] and touches nothing else of the state. *)
Lemma add_ids_loop_exact (elements : list PageElement) :
  forall st,
    add_ids_loop elements st
    = (Ok (annotate_from (os_urandom st) (urandom_calls st) elements),
       after_reads (count_tags elements) st).
Proof.
  induction elements as [|element rest IH]; intro st;
    cbn [add_ids_loop annotate_from].
  - unfold ret. now rewrite after_reads_0.
  - unfold bind, ret. rewrite count_tags_cons. destruct (is_Tag element).
    + unfold uuid4_str at 1. rewrite IH. cbn [os_urandom urandom_calls].
      unfold drawn_id. rewrite Nat.add_0_r. f_equal.
      unfold after_reads. cbn [self_mappings os_urandom urandom_calls].
      f_equal. lia.
    + rewrite IH. reflexivity.
Qed.

Lemma attrs_get_set_other (attrs : list (pystr * pystr)) (key value other : pystr) :
  str_eqb key other = false ->
  attrs_get (attrs_set attrs key value) other = attrs_get attrs other.
Proof.
  intro Hne. induction attrs as [|[k v] attrs IH]; cbn [attrs_set attrs_get].
  - now rewrite Hne.
  - destruct (str_eqb k key) eqn:E; cbn [attrs_get].
    + apply str_eqb_eq in E. subst k. now rewrite Hne.
    + now rewrite IH.
Qed.

Lemma attrs_set_length (attrs : list (pystr * pystr)) (key value : pystr) :
  List.length (attrs_set attrs key value)
  = (List.length attrs
     + match attrs_get attrs key with Some _ => 0 | None => 1 end)%nat.
Proof.
  induction attrs as [|[k v] attrs IH]; cbn [attrs_set attrs_get List.length].
  - reflexivity.
  - destruct (str_eqb k key); cbn [List.length]; [lia|]. rewrite IH. lia.
Qed.

(** Property X6. [_add_unique_ids] changes the top-level [Tag]s and nothing else, and
    of a [Tag] only the identifier attribute: the top level keeps its
    nodes in their order, text nodes are unchanged, a [Tag] keeps its
    name, its contents (nested elements get no identifier) and every other
    attribute, and gets the identifier as the value of one attribute, in
    place of the value it had if the attribute was there. *)
Theorem add_unique_ids_only_marks_tags (soup soup' : Soup) (st st' : state) :
  _add_unique_ids soup st = (Ok soup', st') ->
  Forall2 (fun element element' =>
             (is_Tag element = false -> element' = element)
             /\ (is_Tag element = true ->
                 is_Tag element' = true
                 /\ element_name element' = element_name element
                 /\ element_contents element' = element_contents element
                 /\ (forall key, str_eqb data_mapping_id key = false ->
                       element_get element' key = element_get element key)
                 /\ (exists id, element_get element' data_mapping_id = Some id
                                /\ truthy id = true)
                 /\ List.length (element_attrs element')
                    = (List.length (element_attrs element)
                       + match element_get element data_mapping_id with
                         | Some _ => 0
                         | None => 1
                         end)%nat))
          (children soup) (children soup').
Proof.
  unfold _add_unique_ids, bind, ret. rewrite add_ids_loop_exact.
  intros [= <- _]. cbn [children].
  generalize (urandom_calls st) as calls.
  induction (children soup) as [|element rest IH]; intro calls;
    cbn [annotate_from]; [constructor|].
  destruct (is_Tag element) eqn:Htag; constructor; try apply IH.
  - split; [congruence|]. intros _.
    destruct element as [name attrs contents|text]; [|discriminate].
    cbn [element_set is_Tag element_name element_contents element_get
         element_attrs].
    repeat split.
    + intros key Hkey. now apply attrs_get_set_other.
    + eexists. split; [apply attrs_get_set|apply str_uuid_truthy].
    + apply attrs_set_length.
  - split; [reflexivity|congruence].
Qed.

Lemma annotate_from_ids (entropy : nat -> N) (elements : list PageElement) :
  forall calls,
    List.map (fun element => element_get element data_mapping_id)
             (filter is_Tag (annotate_from entropy calls elements))
    = List.map (fun k => Some (drawn_id entropy calls k))
               (seq 0 (count_tags elements)).
Proof.
  induction elements as [|element rest IH]; intro calls;
    cbn [annotate_from]; [reflexivity|].
  rewrite count_tags_cons. destruct (is_Tag element) eqn:Htag.
  - cbn [filter]. rewrite is_Tag_element_set, Htag. cbn [List.map Nat.add seq].
    f_equal.
    + destruct element; [|discriminate]. cbn [element_set element_get].
      apply attrs_get_set.
    + rewrite IH, <- seq_shift, map_map. apply map_ext. intro k.
      unfold drawn_id.
      now replace (calls + S k)%nat with (S calls + k)%nat by lia.
  - cbn [filter]. rewrite Htag. cbn [Nat.add]. apply IH.
Qed.

(** Property X7. The identifiers of the top-level [Tag]s are, in document order, the
    identifiers made of the next reads of [os.urandom]: one read per
    [Tag], none for the other nodes; the state is otherwise unchanged. *)
Theorem add_unique_ids_reads (soup : Soup) (st : state) :
  exists soup',
    _add_unique_ids soup st
    = (Ok soup', after_reads (count_tags (children soup)) st)
    /\ List.map (fun element => element_get element data_mapping_id)
                (filter is_Tag (children soup'))
       = List.map (fun k => Some (drawn_id (os_urandom st) (urandom_calls st) k))
                  (seq 0 (count_tags (children soup))).
Proof.
  unfold _add_unique_ids, bind, ret. rewrite add_ids_loop_exact.
  eexists. split; [reflexivity|]. cbn [children]. apply annotate_from_ids.
Qed.

End IdentifiersFurther.

(** ** [find_html_by_line] *)

Section LookupFurther.

Lemma find_by_line_loop_first (before after : list HtmlToMarkdownMapping)
      (m : HtmlToMarkdownMapping) (line_number : Z) :
  (forall m', In m' before -> ~ covers m' line_number) ->
  covers m line_number ->
  find_by_line_loop (before ++ m :: after) line_number = _mapping_to_dict m.
Proof.
  intros Hb Hc. induction before as [|x before IH]; cbn [app find_by_line_loop].
  - unfold covers in Hc.
    replace (markdown_line_start m <=? line_number)%Z with true
      by (symmetry; apply Z.leb_le; lia).
    replace (line_number <=? markdown_line_end m)%Z with true
      by (symmetry; apply Z.leb_le; lia).
    reflexivity.
  - assert (Hx : ~ covers x line_number) by (apply Hb; now left).
    destruct ((markdown_line_start x <=? line_number)%Z
              && (line_number <=? markdown_line_end x)%Z) eqn:E.
    + exfalso. apply Hx. apply andb_true_iff in E as [E1 E2]. unfold covers. lia.
    + apply IH. intros m' Hin. apply Hb. now right.
Qed.

(** Property X5. The empty dictionary is a reliable answer: [find_html_by_line]
    returns it exactly when no stored record holds the line, and any other
    answer is the dictionary of a stored record whose range, as written in
    the answer, holds the line. *)
Theorem find_html_by_line_empty_iff (st : state) (line_number : Z) :
  (find_html_by_line line_number st = []
   <-> forall m, In m (self_mappings st) -> ~ covers m line_number)
  /\ (find_html_by_line line_number st <> [] ->
      exists m line_start line_end,
        In m (self_mappings st)
        /\ find_html_by_line line_number st = _mapping_to_dict m
        /\ dict_get (find_html_by_line line_number st) "markdown_line_start"
           = Some (VInt line_start)
        /\ dict_get (find_html_by_line line_number st) "markdown_line_end"
           = Some (VInt line_end)
        /\ (line_start <= line_number <= line_end)%Z).
Proof.
  unfold find_html_by_line.
  destruct (find_by_line_loop_cases (self_mappings st) line_number)
    as [[Hr Hno]|[m [(before & after & Hs & Hc & Hb) Hr]]].
  - split; [split; auto|]. congruence.
  - assert (Hin : In m (self_mappings st)).
    { rewrite Hs. apply in_or_app. right. now left. }
    split.
    + split.
      * rewrite Hr. discriminate.
      * intro Hno. exfalso. exact (Hno m Hin Hc).
    + intros _. exists m, (markdown_line_start m), (markdown_line_end m).
      split; [exact Hin|]. split; [exact Hr|]. rewrite Hr.
      split; [reflexivity|]. split; [reflexivity|exact Hc].
Qed.

Lemma chained_before (before after : list HtmlToMarkdownMapping)
      (m : HtmlToMarkdownMapping) :
  chained (before ++ m :: after) ->
  Forall (fun m' => (markdown_line_start m' <= markdown_line_end m')%Z)
         (before ++ m :: after) ->
  forall m', In m' before -> (markdown_line_end m' <= markdown_line_start m)%Z.
Proof.
  induction before as [|x before IH]; intros Hch Hle m' Hin; [destruct Hin|].
  cbn [app] in Hch, Hle. destruct Hch as [Hhead Htail].
  inversion Hle as [|? ? Hx Hrest]; subst.
  assert (Hxm : (markdown_line_end x <= markdown_line_start m)%Z).
  { destruct before as [|y before]; cbn [app] in *; [exact Hhead|].
    inversion Hrest as [|? ? Hy _]; subst.
    specialize (IH Htail Hrest y (or_introl eq_refl)). lia. }
  destruct Hin as [<-|Hin]; [exact Hxm|]. now apply IH.
Qed.

End LookupFurther.

(** ** [_create_mapping] and [convert_with_mapping] *)

Section ConversionFurther.

Variable BeautifulSoup : pystr -> result Soup.
Variable str_soup : Soup -> result pystr.
Variable str_element : PageElement -> result pystr.
Variable md : pystr -> result pystr.

Lemma subsequence_none {A} (l : list A) : subsequence [] l.
Proof. induction l; constructor; auto. Qed.

(** What the loop appends, however it ends: the records of some of the
    elements it went through, in their order. *)
Lemma mapping_loop_trace (markdown_lines : list pystr)
      (elements : list PageElement) :
  forall current_line st r st',
    mapping_loop str_element md markdown_lines elements current_line st = (r, st') ->
    exists sub appended,
      self_mappings st' = self_mappings st ++ appended
      /\ subsequence sub elements
      /\ Forall2 (record_of str_element md markdown_lines) sub appended.
Proof.
  induction elements as [|element rest IH]; intros c st r st' Hrun;
    cbn [mapping_loop] in Hrun.
  - injection Hrun as _ <-. exists [], []. rewrite app_nil_r.
    repeat split; constructor.
  - unfold bind in Hrun.
    destruct (mapping_body_cases str_element md markdown_lines element c)
      as [[_ Hbody]|[[e [_ [_ Hbody]]]|(id & html & rendered & i & m & H)]].
    + rewrite Hbody in Hrun.
      destruct (IH _ _ _ _ Hrun) as (sub & recs & Hs & Hsub & Hrec).
      exists sub, recs. split; [exact Hs|]. split; [now constructor|exact Hrec].
    + rewrite Hbody in Hrun. injection Hrun as _ <-.
      exists [], []. rewrite app_nil_r.
      split; [reflexivity|]. split; [apply subsequence_none|constructor].
    + destruct H as (Htag & Hid & _ & Hh & Hr & Hne & _ & Hm & _ & Hrecord & Hbody).
      rewrite Hbody in Hrun.
      destruct (IH _ _ _ _ Hrun) as (sub & recs & Hs & Hsub & Hrec).
      cbn [with_mappings self_mappings] in Hs.
      exists (element :: sub), (m :: recs).
      split; [now rewrite Hs, <- app_assoc|]. split; [now constructor|].
      constructor; [|exact Hrec].
      subst m. unfold record_of.
      cbn [html_element_id html_content html_tag markdown_content
           markdown_line_start markdown_line_end].
      split; [exact Htag|]. split; [exact Hid|]. split; [exact Hh|].
      split; [reflexivity|]. split; [now exists rendered|]. split; [exact Hne|].
      split; [now replace (i + 1 - 1)%Z with i by lia|lia].
Qed.

(** Property X8. The records a successful conversion returns are, in document order,
    the records of some of the top-level [Tag]s of the annotated tree:
    each has the identifier, the tag name and the serialised HTML of its
    element, holds the element's own trimmed rendering, and that
    rendering is found, line by line up to surrounding whitespace, at the
    lines of the record's range in the raw Markdown. *)
Theorem records_in_document_order
        (html_text : pystr) (st st' : state) (d : Dict)
        (parsed soup : Soup) (st1 : state) (html markdown_result : pystr) :
  convert_with_mapping BeautifulSoup str_soup str_element md html_text st = (d, st') ->
  dict_get d "status" = Some (VStr (lit "converted")) ->
  BeautifulSoup html_text = Ok parsed ->
  _add_unique_ids parsed st = (Ok soup, st1) ->
  str_soup soup = Ok html ->
  md html = Ok markdown_result ->
  exists sub,
    subsequence sub (children soup)
    /\ Forall2 (record_of str_element md (split NL markdown_result))
               sub (self_mappings st').
Proof.
  intros Hrun Hstatus Hparse Hids Hhtml Hmd.
  destruct (converted_inv _ _ _ _ _ _ _ _ Hrun Hstatus)
    as (parsed' & soup' & st1' & html' & raw' & Hp & Hi & Hh & Hm & Hloop & Hd).
  rewrite Hparse in Hp. injection Hp as <-.
  rewrite Hids in Hi. injection Hi as <- <-.
  rewrite Hhtml in Hh. injection Hh as <-.
  rewrite Hmd in Hm. injection Hm as <-.
  destruct (mapping_loop_trace _ _ _ _ _ _ Hloop) as (sub & recs & Hs & Hsub & Hrec).
  cbn [with_mappings self_mappings app] in Hs. rewrite Hs. now exists sub.
Qed.

(** Property X9. After a successful conversion every line of every returned record is
    answered by [find_html_by_line], and every line of a record after its
    first is answered with that very record; only the first line of a
    record can be answered with an earlier one. The first record answers
    for all its lines. *)
Theorem lookup_after_conversion
        (html_text : pystr) (st st' : state) (d : Dict)
        (before after : list HtmlToMarkdownMapping) (m : HtmlToMarkdownMapping) :
  convert_with_mapping BeautifulSoup str_soup str_element md html_text st = (d, st') ->
  dict_get d "status" = Some (VStr (lit "converted")) ->
  self_mappings st' = before ++ m :: after ->
  (forall line_number, covers m line_number ->
     find_html_by_line line_number st' <> [])
  /\ (forall line_number,
        (markdown_line_start m < line_number <= markdown_line_end m)%Z ->
        find_html_by_line line_number st' = _mapping_to_dict m)
  /\ (before = [] ->
      forall line_number, covers m line_number ->
        find_html_by_line line_number st' = _mapping_to_dict m).
Proof.
  intros Hrun Hstatus Hsplit.
  destruct (converted_inv _ _ _ _ _ _ _ _ Hrun Hstatus)
    as (parsed & soup & st1 & html & raw & _ & _ & _ & _ & Hloop & _).
  apply loop_invariant_loop in Hloop.
  2:{ cbn [with_mappings self_mappings]. repeat split; try constructor. lia. }
  destruct Hloop as [c [_ (_ & Hb & Hch & _)]].
  rewrite Hsplit in Hb, Hch.
  assert (Hle : Forall (fun m' => (markdown_line_start m' <= markdown_line_end m')%Z)
                       (before ++ m :: after)).
  { eapply Forall_impl; [|exact Hb]. intros m' (Hs & _). lia. }
  pose proof (chained_before before after m Hch Hle) as Hearlier.
  split; [|split].
  - intros n Hc. unfold find_html_by_line. rewrite Hsplit.
    destruct (find_by_line_loop_cases (before ++ m :: after) n)
      as [[_ Hno]|[m0 [_ Hr]]].
    + exfalso. apply (Hno m); [|exact Hc]. apply in_or_app. right. now left.
    + rewrite Hr. discriminate.
  - intros n Hn. unfold find_html_by_line. rewrite Hsplit.
    apply find_by_line_loop_first; [|unfold covers; lia].
    intros m' Hin Hc. specialize (Hearlier m' Hin). unfold covers in Hc. lia.
  - intros -> n Hc. unfold find_html_by_line. rewrite Hsplit.
    now apply find_by_line_loop_first.
Qed.

(** Property X10. The line numbers of the records are those printed in the returned
    Markdown: for every record of a successful conversion and every line
    number [n] of its range, the returned [markdown_result] has an [n]-th
    line, and that line begins with the bracketed number [n]. *)
Theorem record_lines_are_numbered
        (html_text : pystr) (st st' : state) (d : Dict)
        (m : HtmlToMarkdownMapping) (line_number : Z) :
  convert_with_mapping BeautifulSoup str_soup str_element md html_text st = (d, st') ->
  dict_get d "status" = Some (VStr (lit "converted")) ->
  In m (self_mappings st') ->
  covers m line_number ->
  exists text rest,
    dict_get d "markdown_result" = Some (VStr text)
    /\ nth_error (split NL text) (Z.to_nat (line_number - 1))
       = Some (lit "[" ++ fmt_03d line_number ++ lit "]" ++ rest).
Proof.
  intros Hrun Hstatus Hin Hc.
  destruct (converted_inv _ _ _ _ _ _ _ _ Hrun Hstatus)
    as (parsed & soup & st1 & html & raw & _ & _ & _ & _ & Hloop & Hd).
  apply loop_invariant_loop in Hloop.
  2:{ cbn [with_mappings self_mappings]. repeat split; try constructor. lia. }
  destruct Hloop as [c [_ (_ & Hb & _)]].
  rewrite Forall_forall in Hb. destruct (Hb m Hin) as (Hs & He & _).
  unfold covers in Hc.
  assert (Hk : (Z.to_nat (line_number - 1) < List.length (split NL raw))%nat).
  { unfold len in He. lia. }
  destruct (nth_error (split NL raw) (Z.to_nat (line_number - 1))) as [line|] eqn:Hnth.
  2:{ apply nth_error_None in Hnth. lia. }
  destruct (stripped_numbered_line raw _ line Hnth) as (rest & Hline & _).
  replace (Z.of_nat (Z.to_nat (line_number - 1)) + 1)%Z with line_number
    in Hline by lia.
  exists (strip (_add_line_numbers raw)), rest. split; [now subst d|exact Hline].
Qed.

End ConversionFurther.

(** ** How a conversion ends *)

Section Outcomes.

Variable BeautifulSoup : pystr -> result Soup.
Variable str_soup : Soup -> result pystr.
Variable str_element : PageElement -> result pystr.
Variable md : pystr -> result pystr.

(** The two dictionaries a conversion can return. *)
Lemma convert_result_cases (html_text : pystr) (st : state) :
  (exists markdown_result html mappings,
      fst (convert_with_mapping BeautifulSoup str_soup str_element md html_text st)
      = converted_result html_text markdown_result html mappings)
  \/ (exists e,
         fst (convert_with_mapping BeautifulSoup str_soup str_element md html_text st)
         = convert_except html_text e).
Proof.
  unfold convert_with_mapping. rewrite convert_try_run.
  destruct (BeautifulSoup html_text) as [parsed|e]; [|right; now exists e].
  destruct (_add_unique_ids parsed st) as [[soup|e] st1]; [|right; now exists e].
  destruct (str_soup soup) as [html|e]; [|right; now exists e].
  destruct (md html) as [markdown_result|e]; [|right; now exists e].
  destruct (mapping_loop str_element md (split NL markdown_result)
              (children soup) 0 (with_mappings [] st1)) as [[[]|e] st2];
    [|right; now exists e].
  left. now exists markdown_result, html, (self_mappings st2).
Qed.

(** A raise in any step gives the dictionary of the handler. *)
Lemma convert_raises (html_text : pystr) (st : state) (e : exn) :
  raises_before_mapping BeautifulSoup str_soup md html_text st e
  \/ raises_while_mapping BeautifulSoup str_soup str_element md html_text st e ->
  fst (convert_with_mapping BeautifulSoup str_soup str_element md html_text st)
  = convert_except html_text e.
Proof.
  intro H. unfold convert_with_mapping. rewrite convert_try_run.
  destruct H as [[Hp|(parsed & soup & st1 & Hp & Hi & [Hs|(html & Hs & Hm)])]
                |(parsed & soup & st1 & html & raw & Hp & Hi & Hs & Hm & Hl)];
    rewrite Hp; try rewrite Hi; try rewrite Hs; try rewrite Hm;
    try reflexivity.
  destruct (mapping_loop str_element md (split NL raw) (children soup) 0
              (with_mappings [] st1)) as [[[]|e'] st2]; cbn [fst] in Hl;
    [discriminate|].
  now injection Hl as ->.
Qed.

(** Property X11. The returned dictionary has one of two shapes, told apart by
    [status]: with ["converted"] it has [html_with_ids] and no [error];
    with ["error"] it has [error], no [html_with_ids], an empty
    [markdown_result] and no mappings. Both carry the number of characters
    of the input. *)
Theorem result_shape (html_text : pystr) (st : state) :
  let d := fst (convert_with_mapping BeautifulSoup str_soup str_element md
                  html_text st) in
  dict_get d "original_html_length" = Some (VInt (len html_text))
  /\ ((dict_get d "status" = Some (VStr (lit "converted"))
       /\ List.map fst d
          = ["original_html_length"; "markdown_result"; "html_with_ids";
             "mappings"; "status"]%string
       /\ dict_get d "error" = None
       /\ (exists text html records,
              dict_get d "markdown_result" = Some (VStr text)
              /\ dict_get d "html_with_ids" = Some (VStr html)
              /\ dict_get d "mappings" = Some (VList records)))
      \/ (dict_get d "status" = Some (VStr (lit "error"))
          /\ List.map fst d
             = ["original_html_length"; "markdown_result"; "mappings";
                "status"; "error"]%string
          /\ dict_get d "html_with_ids" = None
          /\ dict_get d "markdown_result" = Some (VStr [])
          /\ dict_get d "mappings" = Some (VList [])
          /\ exists message, dict_get d "error" = Some (VStr message))).
Proof.
  cbn zeta.
  destruct (convert_result_cases html_text st)
    as [(raw & html & ms & ->)|(e & ->)].
  - split; [reflexivity|]. left. repeat split. now eexists _, _, _.
  - split; [reflexivity|]. right. repeat split. now eexists.
Qed.

(** Property X12. Whichever way a conversion that parsed its input ends, it has read
    [os.urandom] once per top-level [Tag] of the parsed tree, also when a
    later step raised. *)
Theorem conversion_reads (html_text : pystr) (st : state) (parsed : Soup) :
  BeautifulSoup html_text = Ok parsed ->
  let r := convert_with_mapping BeautifulSoup str_soup str_element md html_text st in
  os_urandom (snd r) = os_urandom st
  /\ urandom_calls (snd r)
     = (urandom_calls st + count_tags (children parsed))%nat.
Proof.
  intros Hp r. subst r. unfold convert_with_mapping.
  rewrite convert_try_run, Hp.
  unfold _add_unique_ids, bind, ret. rewrite add_ids_loop_exact.
  set (soup := Build_Soup _).
  destruct (str_soup soup) as [html|e]; [|split; reflexivity].
  destruct (md html) as [markdown_result|e]; [|split; reflexivity].
  destruct (mapping_loop_frame str_element md (split NL markdown_result)
              (children soup) 0) as (r & appended & Hloop).
  rewrite Hloop. destruct r as [[]|e]; split; reflexivity.
Qed.

Lemma count_tags_zero (elements : list PageElement) :
  count_tags elements = 0%nat ->
  Forall (fun element => is_Tag element = false) elements.
Proof.
  induction elements as [|element rest IH]; intro H; [constructor|].
  rewrite count_tags_cons in H.
  destruct (is_Tag element) eqn:Htag; [lia|].
  constructor; [exact Htag|]. apply IH. lia.
Qed.

Lemma annotate_from_no_tags (entropy : nat -> N) (calls : nat)
      (elements : list PageElement) :
  Forall (fun element => is_Tag element = false) elements ->
  annotate_from entropy calls elements = elements.
Proof.
  induction 1 as [|element rest Htag _ IH]; cbn [annotate_from]; [reflexivity|].
  now rewrite Htag, IH.
Qed.

Lemma mapping_loop_no_tags (markdown_lines : list pystr)
      (elements : list PageElement) :
  Forall (fun element => is_Tag element = false) elements ->
  forall current_line st,
    mapping_loop str_element md markdown_lines elements current_line st
    = (Ok tt, st).
Proof.
  induction 1 as [|element rest Htag _ IH]; intros c st; cbn [mapping_loop];
    [reflexivity|].
  unfold bind, mapping_body. rewrite Htag. unfold ret. apply IH.
Qed.

(** Property X13. A document without top-level [Tag] (text, comments, nothing at all)
    converts without any record: the answer is ["converted"] with an
    empty mapping list, no element is serialised or rendered, no random
    byte is read and the stored list is emptied. *)
Theorem conversion_without_tags
        (html_text : pystr) (st : state) (parsed : Soup)
        (html markdown_result : pystr) :
  BeautifulSoup html_text = Ok parsed ->
  count_tags (children parsed) = 0%nat ->
  str_soup parsed = Ok html ->
  md html = Ok markdown_result ->
  convert_with_mapping BeautifulSoup str_soup str_element md html_text st
  = (converted_result html_text markdown_result html [], with_mappings [] st).
Proof.
  intros Hp Hcount Hs Hm. unfold convert_with_mapping.
  rewrite convert_try_run, Hp.
  unfold _add_unique_ids, bind, ret. rewrite add_ids_loop_exact.
  pose proof (count_tags_zero _ Hcount) as Hnone.
  rewrite annotate_from_no_tags by exact Hnone. rewrite Hcount, after_reads_0.
  replace {| children := children parsed |} with parsed by now destruct parsed.
  rewrite Hs, Hm, mapping_loop_no_tags by exact Hnone. reflexivity.
Qed.

(** A loop that raises went through some elements without raising and
    then met an element that could not be serialised or rendered: the
    state it leaves is the state after those first elements. *)
Lemma mapping_loop_raise_split (markdown_lines : list pystr)
      (elements : list PageElement) :
  forall current_line st e st',
    mapping_loop str_element md markdown_lines elements current_line st
    = (Raise e, st') ->
    exists done failing rest,
      elements = done ++ failing :: rest
      /\ mapping_loop str_element md markdown_lines done current_line st
         = (Ok tt, st')
      /\ is_Tag failing = true
      /\ (str_element failing = Raise e
          \/ exists html, str_element failing = Ok html /\ md html = Raise e).
Proof.
  induction elements as [|element rest IH]; intros c st e st' Hrun;
    cbn [mapping_loop] in Hrun; [discriminate|].
  unfold bind in Hrun.
  destruct (mapping_body_cases str_element md markdown_lines element c)
    as [[_ Hbody]|[[e0 [Htag [Hwhy Hbody]]]|(id & html & rendered & i & m & H)]].
  - rewrite Hbody in Hrun.
    destruct (IH _ _ _ _ Hrun) as (done & failing & rest' & -> & Hdone & Hf).
    exists (element :: done), failing, rest'. split; [reflexivity|].
    split; [|exact Hf]. cbn [mapping_loop]. unfold bind. now rewrite Hbody.
  - rewrite Hbody in Hrun. injection Hrun as <- <-.
    exists [], element, rest. split; [reflexivity|].
    split; [reflexivity|]. split; [exact Htag|exact Hwhy].
  - destruct H as (_ & _ & _ & _ & _ & _ & _ & _ & _ & _ & Hbody).
    rewrite Hbody in Hrun.
    destruct (IH _ _ _ _ Hrun) as (done & failing & rest' & -> & Hdone & Hf).
    exists (element :: done), failing, rest'. split; [reflexivity|].
    split; [|exact Hf]. cbn [mapping_loop]. unfold bind. now rewrite Hbody.
Qed.

(** Property X14. A raise in the mapping phase leaves the engine in between: the call
    returns the error dictionary, whose mapping list is empty, yet the
    engine has dropped what it stored before and is left exactly as the
    mapping of the elements before the failing one leaves it: it stores
    the records of those elements. *)
Theorem failure_while_mapping_stores_partial_records
        (html_text : pystr) (st : state) (parsed soup : Soup) (st1 : state)
        (html markdown_result : pystr) (e : exn) :
  BeautifulSoup html_text = Ok parsed ->
  _add_unique_ids parsed st = (Ok soup, st1) ->
  str_soup soup = Ok html ->
  md html = Ok markdown_result ->
  fst (mapping_loop str_element md (split NL markdown_result) (children soup) 0
         (with_mappings [] st1)) = Raise e ->
  let r := convert_with_mapping BeautifulSoup str_soup str_element md html_text st in
  fst r = convert_except html_text e
  /\ (exists sub,
         subsequence sub (children soup)
         /\ Forall2 (record_of str_element md (split NL markdown_result))
                    sub (self_mappings (snd r)))
  /\ (forall old,
        self_mappings
          (snd (convert_with_mapping BeautifulSoup str_soup str_element md
                  html_text (with_mappings old st)))
        = self_mappings (snd r))
  /\ exists done failing rest,
       children soup = done ++ failing :: rest
       /\ mapping_loop str_element md (split NL markdown_result) done 0
            (with_mappings [] st1) = (Ok tt, snd r)
       /\ is_Tag failing = true
       /\ (str_element failing = Raise e
           \/ exists h, str_element failing = Ok h /\ md h = Raise e).
Proof.
  intros Hp Hi Hs Hm Hl r. split; [|split; [|split]].
  - apply convert_raises. right.
    now exists parsed, soup, st1, html, markdown_result.
  - subst r. unfold convert_with_mapping. rewrite convert_try_run, Hp, Hi, Hs, Hm.
    destruct (mapping_loop str_element md (split NL markdown_result)
                (children soup) 0 (with_mappings [] st1)) as [res st2] eqn:Hloop.
    destruct (mapping_loop_trace _ _ _ _ _ _ _ _ Hloop)
      as (sub & recs & Hrecs & Hsub & Hrec).
    cbn [with_mappings self_mappings] in Hrecs.
    assert (Hst2 : self_mappings st2 = recs) by exact Hrecs.
    exists sub. split; [exact Hsub|].
    destruct res as [[]|e']; cbn [snd]; now rewrite Hst2.
  - intro old. subst r.
    apply (mapping_phase_resets BeautifulSoup str_soup str_element md
             html_text st old parsed soup st1 html markdown_result Hp Hi Hs Hm).
  - subst r. unfold convert_with_mapping. rewrite convert_try_run, Hp, Hi, Hs, Hm.
    destruct (mapping_loop str_element md (split NL markdown_result)
                (children soup) 0 (with_mappings [] st1)) as [res st2] eqn:Hloop.
    cbn [fst] in Hl. subst res. cbn [snd].
    apply (mapping_loop_raise_split _ _ _ _ _ _ Hloop).
Qed.

End Outcomes.

(** ** [convert_html] *)

Section ControllerFacts.

Variable BeautifulSoup : pystr -> result Soup.
Variable str_soup : Soup -> result pystr.
Variable str_element : PageElement -> result pystr.
Variable md : pystr -> result pystr.
Variable render : Dict -> result unit.

(** Property X15. The handler answers an empty text with error 400 before anything is
    converted or read. For every other text it builds a content of six
    fields whose [message] always says that the conversion succeeded and
    which never holds the text of an error of the conversion (its
    [status] alone tells a failure); it answers 200 with that content, and
    500 only when the rendering of the response itself raises. *)
Theorem handler_outcomes (request : Controller.ConvertRequest)
        (entropy : nat -> N) (calls : nat) :
  let r := Controller.convert_html BeautifulSoup str_soup str_element md render
             request entropy calls in
  (Controller.html_text request = []
   /\ r = (Controller.HTTPException 400 Controller.detail_missing, calls))
  \/ (Controller.html_text request <> []
      /\ exists content,
           List.map fst content
           = ["message"; "markdown"; "html_with_ids"; "mappings";
              "original_html_length"; "status"]%string
           /\ dict_get content "message"
              = Some (VStr Controller.message_converted)
           /\ dict_get content "error" = None
           /\ dict_get content "original_html_length"
              = Some (VInt (len (Controller.html_text request)))
           /\ (dict_get content "status" = Some (VStr (lit "converted"))
               \/ dict_get content "status" = Some (VStr (lit "error")))
           /\ ((render content = Ok tt
                /\ fst r = Controller.JSONResponse 200 content)
               \/ (exists e,
                      render content = Raise e
                      /\ fst r = Controller.HTTPException 500
                                   (Controller.detail_failed ++ str_exn e)))).
Proof.
  cbn zeta. unfold Controller.convert_html.
  destruct (Controller.html_text request) as [|c text] eqn:Htext.
  - left. split; reflexivity.
  - right. split; [discriminate|]. cbn [truthy negb].
    unfold Controller.convert_html_try, convert_html_text. rewrite Htext.
    pose proof (convert_result_cases BeautifulSoup str_soup str_element md
                  (c :: text) (init entropy calls)) as Hcases.
    destruct (convert_with_mapping BeautifulSoup str_soup str_element md
                (c :: text) (init entropy calls)) as [result service].
    cbn [fst] in Hcases.
    match goal with
    | |- context [render ?content] => set (C := content)
    end.
    exists C.
    split; [reflexivity|]. split; [reflexivity|]. split; [reflexivity|].
    split.
    { destruct Hcases as [(raw & html & ms & Hres)|(e0 & Hres)];
        unfold C; rewrite Hres; reflexivity. }
    split.
    { destruct Hcases as [(raw & html & ms & Hres)|(e0 & Hres)];
        unfold C; rewrite Hres; [left|right]; reflexivity. }
    destruct (render C) as [[]|e]; [left|right; exists e]; split; reflexivity.
Qed.

(** Property X16. A failed conversion whose response renders is answered like a
    successful one, with status 200 and the message of success; of the
    failure the response keeps the [status] ["error"] only: the Markdown
    and the annotated HTML are empty strings, the mapping list is empty
    and the text of the error is gone. *)
Theorem handler_hides_failure (request : Controller.ConvertRequest)
        (entropy : nat -> N) (calls : nat) (e : exn) :
  Controller.html_text request <> [] ->
  raises_before_mapping BeautifulSoup str_soup md
    (Controller.html_text request) (init entropy calls) e
  \/ raises_while_mapping BeautifulSoup str_soup str_element md
       (Controller.html_text request) (init entropy calls) e ->
  render (Controller.failed_content (len (Controller.html_text request))) = Ok tt ->
  fst (Controller.convert_html BeautifulSoup str_soup str_element md render
         request entropy calls)
  = Controller.JSONResponse 200
      (Controller.failed_content (len (Controller.html_text request))).
Proof.
  intros Htext Hraise Hrender. unfold Controller.convert_html.
  destruct (Controller.html_text request) as [|c text] eqn:E; [congruence|].
  cbn [truthy negb]. unfold Controller.convert_html_try, convert_html_text.
  rewrite E.
  pose proof (convert_raises BeautifulSoup str_soup str_element md
                (c :: text) (init entropy calls) e Hraise) as Hexc.
  destruct (convert_with_mapping BeautifulSoup str_soup str_element md
              (c :: text) (init entropy calls)) as [result service].
  cbn [fst] in Hexc. subst result.
  change [ ("message"%string, VStr Controller.message_converted);
           ("markdown"%string,
            Controller.get_or (convert_except (c :: text) e) "markdown_result" (VStr []));
           ("html_with_ids"%string,
            Controller.get_or (convert_except (c :: text) e) "html_with_ids" (VStr []));
           ("mappings"%string,
            Controller.get_or (convert_except (c :: text) e) "mappings" (VList []));
           ("original_html_length"%string,
            Controller.get_or (convert_except (c :: text) e) "original_html_length" (VInt 0));
           ("status"%string,
            Controller.get_or (convert_except (c :: text) e) "status"
              (VStr (lit "converted"))) ]
    with (Controller.failed_content (len (c :: text))).
  rewrite Hrender. reflexivity.
Qed.

End ControllerFacts.

(** ** The further properties on concrete runs *)

(** Indented and plain lines are searched alike. *)
Lemma find_content_lines_stripped_witness :
  let lines1 := [lit "  a "; lit "b"] in
  let lines2 := [lit "a"; lit " b"] in
  let content1 := lit "a" ++ [NL] ++ lit " b" in
  let content2 := lit " a" ++ [NL] ++ lit "b" in
  List.map strip lines1 = List.map strip lines2
  /\ _find_content_lines lines1 content1 0 = _find_content_lines lines2 content2 0.
Proof.
  cbn zeta. split; [vm_compute; reflexivity|].
  apply (find_content_lines_stripped [lit "  a "; lit "b"] [lit "a"; lit " b"]
           (lit "a" ++ [NL] ++ lit " b") (lit " a" ++ [NL] ++ lit "b") 0);
    vm_compute; reflexivity.
Defined.

(** A fragment found on the third line is found there from the second
    line too. *)
Lemma find_content_lines_restart_witness :
  let lines := [lit "x"; []; lit "a"] in
  _find_content_lines lines (lit "a") 0 = (2, 2)%Z
  /\ _find_content_lines lines (lit "a") 1 = (2, 2)%Z.
Proof.
  cbn zeta. split; [vm_compute; reflexivity|].
  destruct (find_content_lines_restart [lit "x"; []; lit "a"] (lit "a") 0 1)
    as [_ Hsame]; [lia|].
  rewrite Hsame; [vm_compute; reflexivity|].
  vm_compute. discriminate.
Defined.

(** A fragment of two lines does not fit in a document of one. *)
Lemma find_content_lines_fits_witness :
  _find_content_lines [lit "a"] (lit "a" ++ [NL] ++ lit "b") 0 = (-1, -1)%Z.
Proof.
  destruct (find_content_lines_fits [lit "a"] (lit "a" ++ [NL] ++ lit "b") 0)
    as [Hfew _]; [lia|].
  apply Hfew. vm_compute. reflexivity.
Defined.

(** The mixed document: its three [Tag]s are marked, its text node is
    not. *)
Lemma add_unique_ids_only_marks_tags_witness :
  _add_unique_ids (Fixture.parsed Fixture.mixed_doc) Fixture.engine
  = (Ok (Fixture.annotated Fixture.mixed_doc),
     Fixture.annotated_state Fixture.mixed_doc)
  /\ Forall2 (fun element element' =>
                is_Tag element = false -> element' = element)
             (children (Fixture.parsed Fixture.mixed_doc))
             (children (Fixture.annotated Fixture.mixed_doc)).
Proof.
  split; [reflexivity|].
  eapply Forall2_impl;
    [|apply (add_unique_ids_only_marks_tags (Fixture.parsed Fixture.mixed_doc)
               (Fixture.annotated Fixture.mixed_doc) Fixture.engine
               (Fixture.annotated_state Fixture.mixed_doc)); reflexivity].
  intros element element' [Htext _]. exact Htext.
Defined.

(** The title document: two records, of its two top-level elements. *)
Lemma records_in_document_order_witness :
  let r := Fixture.convert Fixture.title_doc Fixture.engine in
  List.length (self_mappings (snd r)) = 2%nat
  /\ exists sub,
       subsequence sub (children (Fixture.annotated Fixture.title_doc))
       /\ Forall2 (record_of Fixture.str_element Fixture.md
                     (split NL (Fixture.rendered Fixture.title_doc)))
                  sub (self_mappings (snd r)).
Proof.
  cbn zeta. split; [vm_compute; reflexivity|].
  apply (records_in_document_order Fixture.BeautifulSoup Fixture.str_soup
           Fixture.str_element Fixture.md Fixture.title_doc Fixture.engine
           (snd (Fixture.convert Fixture.title_doc Fixture.engine))
           (fst (Fixture.convert Fixture.title_doc Fixture.engine))
           (Fixture.parsed Fixture.title_doc) (Fixture.annotated Fixture.title_doc)
           (Fixture.annotated_state Fixture.title_doc)
           (Fixture.serialised Fixture.title_doc)).
  - apply surjective_pairing.
  - vm_compute. reflexivity.
  - reflexivity.
  - reflexivity.
  - reflexivity.
  - reflexivity.
Defined.

(** The title document: line 1 is answered with the first record. *)
Lemma lookup_after_conversion_witness :
  let st' := snd (Fixture.convert Fixture.title_doc Fixture.engine) in
  exists m1 m2,
    self_mappings st' = [m1; m2]
    /\ covers m1 1
    /\ find_html_by_line 1 st' = _mapping_to_dict m1.
Proof.
  cbn zeta. eexists _, _. split; [vm_compute; reflexivity|].
  split; [unfold covers; cbn; lia|].
  eapply (lookup_after_conversion Fixture.BeautifulSoup Fixture.str_soup
            Fixture.str_element Fixture.md Fixture.title_doc Fixture.engine
            (snd (Fixture.convert Fixture.title_doc Fixture.engine))
            (fst (Fixture.convert Fixture.title_doc Fixture.engine))
            [] _ _).
  - apply surjective_pairing.
  - vm_compute. reflexivity.
  - vm_compute. reflexivity.
  - reflexivity.
  - unfold covers. cbn. lia.
Defined.

(** The title document: the paragraph is mapped to line 3, and the third
    line of the returned Markdown is numbered 003. *)
Lemma record_lines_are_numbered_witness :
  let r := Fixture.convert Fixture.title_doc Fixture.engine in
  exists m text rest,
    In m (self_mappings (snd r))
    /\ covers m 3
    /\ dict_get (fst r) "markdown_result" = Some (VStr text)
    /\ nth_error (split NL text) 2 = Some (lit "[003]" ++ rest).
Proof.
  cbn zeta.
  assert (Hm : exists m1 m2,
             self_mappings (snd (Fixture.convert Fixture.title_doc Fixture.engine))
             = [m1; m2]
             /\ covers m2 3).
  { eexists _, _. split; [vm_compute; reflexivity|]. unfold covers. cbn. lia. }
  destruct Hm as (m1 & m2 & Hlist & Hc).
  assert (Hin : In m2 (self_mappings
                         (snd (Fixture.convert Fixture.title_doc Fixture.engine)))).
  { rewrite Hlist. right. now left. }
  destruct (record_lines_are_numbered Fixture.BeautifulSoup Fixture.str_soup
              Fixture.str_element Fixture.md Fixture.title_doc Fixture.engine
              (snd (Fixture.convert Fixture.title_doc Fixture.engine))
              (fst (Fixture.convert Fixture.title_doc Fixture.engine)) m2 3)
    as (text & rest & Htext & Hline).
  - apply surjective_pairing.
  - vm_compute. reflexivity.
  - exact Hin.
  - exact Hc.
  - exists m2, text, rest.
    split; [exact Hin|]. split; [exact Hc|]. split; [exact Htext|exact Hline].
Defined.

(** The title document with the renderer that fails on paragraphs: the
    heading is mapped, the paragraph raises; two identifiers were read. *)
Lemma conversion_reads_witness :
  let r := Faulty.convert Fixture.title_doc Fixture.engine in
  dict_get (fst r) "status" = Some (VStr (lit "error"))
  /\ count_tags (children (Fixture.parsed Fixture.title_doc)) = 2%nat
  /\ urandom_calls (snd r) = 2%nat.
Proof.
  cbn zeta. split; [vm_compute; reflexivity|]. split; [reflexivity|].
  apply (conversion_reads Fixture.BeautifulSoup Fixture.str_soup
           Fixture.str_element Faulty.md Fixture.title_doc Fixture.engine
           (Fixture.parsed Fixture.title_doc)).
  reflexivity.
Defined.

(** A text without markup converts with no record and no read. *)
Lemma conversion_without_tags_witness :
  let r := Plain.convert (lit "just text") Fixture.engine in
  dict_get (fst r) "status" = Some (VStr (lit "converted"))
  /\ dict_get (fst r) "mappings" = Some (VList [])
  /\ snd r = Fixture.engine.
Proof.
  cbn zeta. unfold Plain.convert.
  rewrite (conversion_without_tags Plain.BeautifulSoup Fixture.str_soup
             Fixture.str_element Fixture.md (lit "just text") Fixture.engine
             {| children := [NavigableString (lit "just text")] |}
             (lit "just text") (lit "just text"));
    try reflexivity.
  repeat split.
Defined.

(** The title document with the renderer that fails on paragraphs: the
    result says that nothing was mapped, the engine stores the record of
    the heading. *)
Lemma failure_while_mapping_stores_partial_records_witness :
  let r := Faulty.convert Fixture.title_doc Fixture.engine in
  dict_get (fst r) "mappings" = Some (VList [])
  /\ List.map (fun m => (html_tag m, line_range m)) (self_mappings (snd r))
     = [(lit "h1", (1, 1)%Z)]
  /\ fst r = convert_except Fixture.title_doc (Exception (lit "cannot render"))
  /\ exists done failing rest,
       children (Fixture.annotated Fixture.title_doc) = done ++ failing :: rest
       /\ mapping_loop Fixture.str_element Faulty.md
            (split NL (Fixture.rendered Fixture.title_doc)) done 0
            (with_mappings [] (Fixture.annotated_state Fixture.title_doc))
          = (Ok tt, snd r).
Proof.
  cbn zeta. split; [vm_compute; reflexivity|]. split; [vm_compute; reflexivity|].
  destruct (failure_while_mapping_stores_partial_records Fixture.BeautifulSoup
              Fixture.str_soup Fixture.str_element Faulty.md Fixture.title_doc
              Fixture.engine (Fixture.parsed Fixture.title_doc)
              (Fixture.annotated Fixture.title_doc)
              (Fixture.annotated_state Fixture.title_doc)
              (Fixture.serialised Fixture.title_doc)
              (Fixture.rendered Fixture.title_doc)
              (Exception (lit "cannot render")))
    as (Hresult & _ & _ & done & failing & rest & Hsplit & Hdone & _);
    try (vm_compute; reflexivity).
  split; [exact Hresult|]. now exists done, failing, rest.
Defined.

(** A text the parser rejects: the handler answers 200. *)
Lemma handler_hides_failure_witness :
  exists content,
    fst (Controller.convert_html Fixture.BeautifulSoup Fixture.str_soup
           Fixture.str_element Fixture.md Controller.render_json
           {| Controller.html_text := lit "<p>" |} Fixture.entropy 0)
    = Controller.JSONResponse 200 content
    /\ dict_get content "status" = Some (VStr (lit "error"))
    /\ dict_get content "error" = None.
Proof.
  eexists. split.
  - apply (handler_hides_failure Fixture.BeautifulSoup Fixture.str_soup
             Fixture.str_element Fixture.md Controller.render_json
             {| Controller.html_text := lit "<p>" |} Fixture.entropy 0
             (Exception (lit "unsupported markup"))).
    + discriminate.
    + left. left. reflexivity.
    + reflexivity.
  - split; reflexivity.
Defined.

(** ** The order of the records and the head of the Markdown *)

Section OrderFurther.

Variable BeautifulSoup : pystr -> result Soup.
Variable str_soup : Soup -> result pystr.
Variable str_element : PageElement -> result pystr.
Variable md : pystr -> result pystr.

(** Property X17. Two records of a successful conversion never cross: the earlier one
    ends no later than the later one starts, so starts and ends never
    decrease in document order, and a line that both ranges hold is the
    last line of the earlier record and the first line of the later
    one. *)
Theorem records_share_at_most_a_boundary
        (html_text : pystr) (st st' : state) (d : Dict)
        (before after : list HtmlToMarkdownMapping)
        (earlier later : HtmlToMarkdownMapping) :
  convert_with_mapping BeautifulSoup str_soup str_element md html_text st = (d, st') ->
  dict_get d "status" = Some (VStr (lit "converted")) ->
  self_mappings st' = before ++ later :: after ->
  In earlier before ->
  (markdown_line_end earlier <= markdown_line_start later)%Z
  /\ (markdown_line_start earlier <= markdown_line_start later)%Z
  /\ (markdown_line_end earlier <= markdown_line_end later)%Z
  /\ forall line_number,
       covers earlier line_number -> covers later line_number ->
       line_number = markdown_line_end earlier
       /\ line_number = markdown_line_start later.
Proof.
  intros Hrun Hstatus Hsplit Hin.
  destruct (converted_inv _ _ _ _ _ _ _ _ Hrun Hstatus)
    as (parsed & soup & st1 & html & raw & _ & _ & _ & _ & Hloop & _).
  apply loop_invariant_loop in Hloop.
  2:{ cbn [with_mappings self_mappings]. repeat split; try constructor. lia. }
  destruct Hloop as [c [_ (_ & Hb & Hch & _)]].
  rewrite Hsplit in Hb, Hch.
  assert (Hle : Forall (fun m => (markdown_line_start m <= markdown_line_end m)%Z)
                       (before ++ later :: after)).
  { eapply Forall_impl; [|exact Hb]. intros m (Hs & _). lia. }
  pose proof (chained_before before after later Hch Hle earlier Hin) as Hend.
  rewrite Forall_forall in Hle.
  assert (He : (markdown_line_start earlier <= markdown_line_end earlier)%Z).
  { apply Hle. apply in_or_app. now left. }
  assert (Hl : (markdown_line_start later <= markdown_line_end later)%Z).
  { apply Hle. apply in_or_app. right. now left. }
  repeat split; try lia; unfold covers in *; lia.
Qed.

Lemma join_starts (sep : pystr) (l : pystr) (ls : list pystr) :
  exists tail, join sep (l :: ls) = l ++ tail.
Proof.
  destruct ls as [|l' ls].
  - exists []. cbn [join]. now rewrite app_nil_r.
  - now exists (sep ++ join sep (l' :: ls)).
Qed.

(** Property X18. The Markdown of a successful conversion is never empty: it begins
    with the number of its first line, [[001]], also when the document
    renders to nothing. *)
Theorem markdown_result_starts_numbered
        (html_text : pystr) (st st' : state) (d : Dict) :
  convert_with_mapping BeautifulSoup str_soup str_element md html_text st = (d, st') ->
  dict_get d "status" = Some (VStr (lit "converted")) ->
  exists tail, dict_get d "markdown_result" = Some (VStr (lit "[001]" ++ tail)).
Proof.
  intros Hrun Hstatus.
  destruct (converted_inv _ _ _ _ _ _ _ _ Hrun Hstatus)
    as (parsed & soup & st1 & html & raw & _ & _ & _ & _ & _ & Hd).
  destruct (split_cons NL raw) as [l0 [ls Hraw]].
  assert (H0 : nth_error (split NL raw) 0 = Some l0) by now rewrite Hraw.
  destruct (stripped_numbered_line raw 0 l0 H0) as (rest & Hline & _).
  change (lit "[" ++ fmt_03d (Z.of_nat 0 + 1) ++ lit "]" ++ rest)
    with (lit "[001]" ++ rest) in Hline.
  set (text := strip (_add_line_numbers raw)) in *.
  destruct (split_cons NL text) as [t0 [ts Htext]].
  rewrite Htext in Hline. cbn [nth_error] in Hline. injection Hline as ->.
  destruct (join_starts [NL] (lit "[001]" ++ rest) ts) as [tail Hjoin].
  exists (rest ++ tail). subst d.
  change (dict_get (converted_result html_text raw html (self_mappings st'))
            "markdown_result") with (Some (VStr text)).
  do 2 f_equal. rewrite <- (join_split NL text), Htext.
  etransitivity; [exact Hjoin|]. now rewrite <- app_assoc.
Qed.

End OrderFurther.

(** The twin document: the two records share line 1, the last line of the
    first and the first line of the second. *)
Lemma records_share_at_most_a_boundary_witness :
  let st' := snd (Fixture.convert Fixture.twin_doc Fixture.engine) in
  exists m1 m2,
    self_mappings st' = [m1; m2]
    /\ covers m1 1 /\ covers m2 1
    /\ (markdown_line_end m1 <= markdown_line_start m2)%Z.
Proof.
  cbn zeta. eexists _, _. split; [vm_compute; reflexivity|].
  split; [unfold covers; cbn; lia|]. split; [unfold covers; cbn; lia|].
  eapply (records_share_at_most_a_boundary Fixture.BeautifulSoup Fixture.str_soup
            Fixture.str_element Fixture.md Fixture.twin_doc Fixture.engine
            (snd (Fixture.convert Fixture.twin_doc Fixture.engine))
            (fst (Fixture.convert Fixture.twin_doc Fixture.engine))
            [_] [] _ _).
  - apply surjective_pairing.
  - vm_compute. reflexivity.
  - vm_compute. reflexivity.
  - left. reflexivity.
Defined.

(** The title document: its Markdown begins with [[001]]. *)
Lemma markdown_result_starts_numbered_witness :
  let d := fst (Fixture.convert Fixture.title_doc Fixture.engine) in
  dict_get d "status" = Some (VStr (lit "converted"))
  /\ exists tail, dict_get d "markdown_result" = Some (VStr (lit "[001]" ++ tail)).
Proof.
  cbn zeta. split; [vm_compute; reflexivity|].
  apply (markdown_result_starts_numbered Fixture.BeautifulSoup Fixture.str_soup
           Fixture.str_element Fixture.md Fixture.title_doc Fixture.engine
           (snd (Fixture.convert Fixture.title_doc Fixture.engine))
           (fst (Fixture.convert Fixture.title_doc Fixture.engine))).
  - apply surjective_pairing.
  - vm_compute. reflexivity.
Defined.

(** * Failures and repeated calls *)

(** ** The message of a failure *)

Section Failures.

Variable BeautifulSoup : pystr -> result Soup.
Variable str_soup : Soup -> result pystr.
Variable str_element : PageElement -> result pystr.
Variable md : pystr -> result pystr.



End Failures.

(** ** Two calls on one input *)

Section RepeatedCalls.

Variable BeautifulSoup : pystr -> result Soup.
Variable str_soup : Soup -> result pystr.
Variable str_element : PageElement -> result pystr.
Variable md : pystr -> result pystr.








End RepeatedCalls.

(** ** The two theorems on concrete runs *)



